(** * Tunnel set-up and port forwarding of terraform-provider-mysql

  A shallow embedding of the Go code under [mysql/port_forward]
  ([session_manager.go], [port_forward.go]), of the older copy in
  [mysql/session_manager.go], and of the part of [providerConfigure]
  that resolves the provider configuration into a forwarding plan.

  Go values are modelled as follows: [string] as [string], [error] as
  [option error] ([None] is [nil]), [map[string]string] as
  [gmap string string], [map[string]interface{}] as a [gmap] of tagged
  values, a pointer that may be [nil] as an [option].  Calls that leave
  the process (AWS, the file system, the plugin process, the network)
  are answered by an explicit environment and recorded in a trace. *)

From Stdlib Require Import ZArith Ascii String List Bool Lia DecimalString DecimalN.
From stdpp Require Import base option list strings gmap.

Local Open Scope string_scope.
Local Open Scope list_scope.

(** ** Go errors and [go-multierror] *)

Module GoError.

(** A known-hosts key: its algorithm name and its marshalled bytes
    ([ssh.PublicKey.Type] and [ssh.PublicKey.Marshal]). *)
Record PublicKey := mkKey { key_type : string; key_blob : string }.

(** The error values the code builds or inspects:
    [errors.New]/[fmt.Errorf] messages, [*knownhosts.KeyError] with its
    [Want] list, and [*multierror.Error] with its [Errors] list. *)
#[warnings="-register-all"]
Inductive error :=
| ErrMsg (msg : string)
| KeyError (want : list PublicKey)
| MultiError (errs : list error).

(** [multierror.Append(err, errs...)]: a [*multierror.Error] first
    argument is extended, any other non-nil first argument becomes the
    first element of a fresh one; appended [*multierror.Error]s are
    flattened one level. *)
Definition flatten1 (e : error) : list error :=
  match e with
  | MultiError es => es
  | _ => [e]
  end.

Definition multierror_Append (err : option error) (errs : list error) : error :=
  match err with
  | Some (MultiError es) => MultiError (es ++ concat (map flatten1 errs))
  | Some e => MultiError (e :: concat (map flatten1 errs))
  | None => MultiError (concat (map flatten1 errs))
  end.

(** The causes an error value carries: itself, or the elements of a
    multierror (recursively). *)
Fixpoint causes (e : error) : list error :=
  match e with
  | MultiError es =>
      (fix go (l : list error) : list error :=
         match l with
         | [] => []
         | x :: r => causes x ++ go r
         end) es
  | _ => [e]
  end.

End GoError.
Export GoError.

(** ** Go string helpers used by the code *)

Module GoStrings.

(** [strings.Contains(s, string(c))] for a one-byte needle. *)
Fixpoint strings_Contains (s : string) (c : ascii) : bool :=
  match s with
  | EmptyString => false
  | String a r => if Ascii.eqb a c then true else strings_Contains r c
  end.

(** [strings.Split(s, string(sep))] for a one-byte separator: the
    fields between the separators, always at least one. *)
Fixpoint strings_Split (s : string) (sep : ascii) : list string :=
  match s with
  | EmptyString => [EmptyString]
  | String a r =>
      if Ascii.eqb a sep then EmptyString :: strings_Split r sep
      else match strings_Split r sep with
           | h :: t => String a h :: t
           | [] => [String a EmptyString]
           end
  end.

(** [%d] of [fmt.Sprintf] on an unsigned value: the decimal digits,
    most significant first. *)
Definition itoa (n : N) : string :=
  NilEmpty.string_of_uint (N.to_uint n).

(** Reading decimal digits back. *)
Definition atoi (s : string) : option N :=
  N.of_uint <$> NilEmpty.uint_of_string s.

End GoStrings.
Export GoStrings.

(** ** The configuration as the schema layer hands it over *)

Module Schema.

(** A value of a [map[string]interface{}]; a type assertion [.(string)]
    or [.(bool)] succeeds on the matching constructor only. *)
Inductive Value :=
| VString (s : string)
| VBool (b : bool)
| VInt (z : Z).

Definition asString (v : option Value) : option string :=
  match v with
  | Some (VString s) => Some s
  | _ => None
  end.

Definition asBool (v : option Value) : option bool :=
  match v with
  | Some (VBool b) => Some b
  | _ => None
  end.

(** [if v, ok := m[k].(string); ok && v != ""]: the string, when the
    guard passes. *)
Definition nonEmpty (v : option string) : option string :=
  match v with
  | Some s => if String.eqb s "" then None else Some s
  | None => None
  end.

(** What [d.GetOk] answers for one of the two list-typed blocks:
    [None] when [ok] is false, otherwise the list, whose elements may
    be [nil]. *)
Definition Block := option (list (option (gmap string Value))).

(** The provider configuration read by [providerConfigure]. *)
Record ResourceData := mkResourceData {
  d_aws_ssm_session_manager_client_config : Block;
  d_port_forward_client_config : Block
}.

(** [strconv.FormatBool]. *)
Definition strconv_FormatBool (b : bool) : string :=
  if b then "true" else "false".

(** A Go map read [m[k]] on a [map[string]string]: the zero value for a
    missing key. *)
Definition mapGet (m : gmap string string) (k : string) : string :=
  default "" (m !! k).

End Schema.
Export Schema.

(** ** The process's surroundings *)

Module Host.

(** An AWS session as [session.NewSessionWithOptions] builds it. *)
Record Session := mkSession { sess_profile : string; sess_region : string }.

(** What the resolving process sees of its machine: the current user
    ([user.Current]), the home directory ([os.UserHomeDir], [None] on
    error), which paths [os.Stat] finds, and whether an AWS session can
    be built for a profile and region.

    The record describes a machine on which [user.Current] succeeds.
    Where it fails the code reads [cu.Username] through a nil pointer
    and panics; that machine is outside this model, and so are the
    statements below about the functions that read the user name. *)
Record OS := mkOS {
  os_Username : string;
  os_UserHomeDir : option string;
  os_Stat : string -> bool;
  aws_NewSession : string -> string -> option Session
}.

(** One element of a path met by [path.Clean], the elements kept so
    far being in [kept], last one first: empty elements and [.] are
    dropped, [..] removes the element before it, stays in front of an
    unrooted path when there is none, and is dropped at the root. *)
Definition cleanElement (rooted : bool) (kept : list string) (element : string)
  : list string :=
  if String.eqb element "" || String.eqb element "." then kept
  else if String.eqb element ".." then
    match kept with
    | top :: below => if String.eqb top ".." then element :: kept else below
    | [] => if rooted then [] else [element]
    end
  else element :: kept.

(** [path.Clean]. *)
Definition path_Clean (p : string) : string :=
  match p with
  | EmptyString => "."
  | String c _ =>
      let rooted := Ascii.eqb c "/" in
      let kept := fold_left (cleanElement rooted) (strings_Split p "/") [] in
      let body := String.concat "/" (rev kept) in
      if rooted then "/" +:+ body
      else if String.eqb body "" then "." else body
  end.

(** [path.Join]: the elements from the first non-empty one on, with
    slashes between them, cleaned; the empty string when all are
    empty. *)
Fixpoint path_Join_from (started : bool) (elem : list string) : string :=
  match elem with
  | [] => ""
  | e :: rest =>
      if started then "/" +:+ e +:+ path_Join_from true rest
      else if String.eqb e "" then path_Join_from false rest
      else e +:+ path_Join_from true rest
  end.

Definition path_Join (elem : list string) : string :=
  match path_Join_from false elem with
  | EmptyString => ""
  | joined => path_Clean joined
  end.

(** [path.Join(home, ".ssh", name)]. *)
Definition path_Join_ssh (home name : string) : string :=
  path_Join [home; ".ssh"; name].

Definition defaultSSHKeyPath (os : OS) : string :=
  match os_UserHomeDir os with
  | None => ""
  | Some home => path_Join_ssh home "id_rsa"
  end.

End Host.
Export Host.

(** ** Package [port_forward]: configuration resolution *)

Module Resolve.

Record sessionConfig := mkSessionConfig {
  instanceID : string;
  session : option Session
}.

Record portFowardConfig := mkPortFowardConfig {
  sshUser : string;
  keyPath : string;
  localPort : N;
  remoteEndpoint : string;
  dbEndpoint : string;
  useRemotePortForward : bool
}.

(** [sessionConfig.validate]. *)
Definition sessionConfig_validate (conf : sessionConfig) : option error :=
  let errors : option error := None in
  let errors :=
    if String.eqb (instanceID conf) ""
    then Some (multierror_Append errors [ErrMsg "not set ec2_instance_id"])
    else errors in
  let errors :=
    match session conf with
    | None => Some (multierror_Append errors [ErrMsg "AWS configure is not a valid"])
    | Some _ => errors
    end in
  errors.

(** [ParseSessionConfig]: [inl] is the error result, [inr None] the
    all-nil result, [inr (Some (conf, pfConf))] the success. *)
Definition ParseSessionConfig (os : OS) (d : ResourceData)
  : error + option (sessionConfig * gmap string string) :=
  match d_aws_ssm_session_manager_client_config d with
  | None => inr None
  | Some v =>
      match v with
      | Some confMap :: _ =>
          let pfConf : gmap string string := ∅ in
          let instance := default "" (nonEmpty (asString (confMap !! "ec2_instance_id"))) in
          let pfConf := <["remote_endpoint" := instance +:+ ":22"]> pfConf in
          let profile := default "" (nonEmpty (asString (confMap !! "aws_profile"))) in
          let region := default "" (nonEmpty (asString (confMap !! "region"))) in
          let sessionConf :=
            {| instanceID := instance; session := aws_NewSession os profile region |} in
          match sessionConfig_validate sessionConf with
          | Some err => inl err
          | None =>
              let pfConf :=
                match nonEmpty (asString (confMap !! "rds_endpoint")) with
                | Some v => <["db_endpoint" := v]> pfConf
                | None => pfConf
                end in
              let pfConf :=
                match asBool (confMap !! "use_remote_port_forward") with
                | Some v => <["use_remote_port_forward" := strconv_FormatBool v]> pfConf
                | None => pfConf
                end in
              let pfConf :=
                if String.eqb (mapGet pfConf "use_remote_port_forward") "false" then
                  let pfConf := <["ssh_user" := os_Username os]> pfConf in
                  let pfConf :=
                    match nonEmpty (asString (confMap !! "ssh_user")) with
                    | Some v => <["ssh_user" := v]> pfConf
                    | None => pfConf
                    end in
                  let pfConf := <["ssh_key_path" := defaultSSHKeyPath os]> pfConf in
                  match nonEmpty (asString (confMap !! "ssh_key_path")) with
                  | Some v => <["ssh_key_path" := v]> pfConf
                  | None => pfConf
                  end
                else pfConf in
              inr (Some (sessionConf, pfConf))
          end
      | _ => inl (ErrMsg "parseSessionConfig's format validate")
      end
  end.

(** [ParsePFConfigMap]: [inr None] is the nil map. *)
Definition ParsePFConfigMap (os : OS) (d : ResourceData)
  : error + option (gmap string string) :=
  match d_port_forward_client_config d with
  | None => inr None
  | Some v =>
      match v with
      | Some confMap :: _ =>
          let pfConf : gmap string string := ∅ in
          let pfConf :=
            match nonEmpty (asString (confMap !! "remote_host")) with
            | Some v => <["remote_endpoint" := v +:+ ":22"]> pfConf
            | None => pfConf
            end in
          let pfConf :=
            match nonEmpty (asString (confMap !! "db_endpoint")) with
            | Some v => <["db_endpoint" := v]> pfConf
            | None => pfConf
            end in
          let pfConf := <["ssh_user" := os_Username os]> pfConf in
          let pfConf :=
            match nonEmpty (asString (confMap !! "ssh_user")) with
            | Some v => <["ssh_user" := v]> pfConf
            | None => pfConf
            end in
          let pfConf := <["ssh_key_path" := defaultSSHKeyPath os]> pfConf in
          let pfConf :=
            match nonEmpty (asString (confMap !! "ssh_key_path")) with
            | Some v => <["ssh_key_path" := v]> pfConf
            | None => pfConf
            end in
          inr (Some pfConf)
      | _ => inl (ErrMsg "portForwardConfig's format validate")
      end
  end.

(** [portFowardConfig.validate]. *)
Definition portFowardConfig_validate (os : OS) (pfConf : portFowardConfig) : option error :=
  let errors : option error := None in
  let errors :=
    if String.eqb (sshUser pfConf) ""
    then Some (multierror_Append errors [ErrMsg "not set ssh_user"])
    else errors in
  let errors :=
    if os_Stat os (keyPath pfConf) then errors
    else Some (multierror_Append errors
                 [ErrMsg ("ssh_key_path: " +:+ keyPath pfConf +:+ " is not exist")]) in
  errors.

(** [ParsePFConfig]: [inr None] is the nil plan returned for a nil map. *)
Definition ParsePFConfig (os : OS) (confMap : option (gmap string string)) (lp : N)
  : error + option portFowardConfig :=
  match confMap with
  | None => inr None
  | Some confMap =>
      if bool_decide (confMap = ∅) then inl (ErrMsg "parseSSHConfig's format validate")
      else
        let remote := default "" (nonEmpty (confMap !! "remote_endpoint")) in
        let db := default "" (nonEmpty (confMap !! "db_endpoint")) in
        let useRemote :=
          match nonEmpty (confMap !! "use_remote_port_forward") with
          | Some _ => true
          | None => false
          end in
        if useRemote then
          inr (Some {| sshUser := ""; keyPath := ""; localPort := lp;
                       remoteEndpoint := remote; dbEndpoint := db;
                       useRemotePortForward := true |})
        else
          let user := os_Username os in
          let user := default user (nonEmpty (confMap !! "ssh_user")) in
          let key := defaultSSHKeyPath os in
          let key := default key (nonEmpty (confMap !! "ssh_key_path")) in
          let conf := {| sshUser := user; keyPath := key; localPort := lp;
                         remoteEndpoint := remote; dbEndpoint := db;
                         useRemotePortForward := false |} in
          match portFowardConfig_validate os conf with
          | Some err => inl err
          | None => inr (Some conf)
          end
  end.

(** The three ways [Connect] can go. *)
Inductive Strategy := DirectSSH | BrokerRemoteForward | BrokerSSHCarrier.

(** The dispatch of [Connect] and of [sessionConfig.connect]: no
    plan, no tunnel; no session configuration, [pfConf.Connect()] over
    a direct SSH connection; otherwise the branch on
    [pfConf.useRemotePortForward]. *)
Definition Connect_strategy (sessConf : option sessionConfig)
    (pfConf : option portFowardConfig) : option Strategy :=
  match pfConf with
  | None => None
  | Some pf =>
      match sessConf with
      | None => Some DirectSSH
      | Some _ =>
          if useRemotePortForward pf then Some BrokerRemoteForward
          else Some BrokerSSHCarrier
      end
  end.

(** The resolution steps of [providerConfigure], from the two parsers
    to the arguments of [Connect]; [lp] is the port it reads from the
    [endpoint] string. *)
Definition resolve (os : OS) (d : ResourceData) (lp : N)
  : error + (option sessionConfig * option portFowardConfig) :=
  match ParseSessionConfig os d with
  | inl err => inl err
  | inr r =>
      let sessionConf := fst <$> r in
      let pfConfMap := snd <$> r in
      let pfConfMap' :=
        match pfConfMap with
        | None => ParsePFConfigMap os d
        | Some m => inr (Some m)
        end in
      match pfConfMap' with
      | inl err => inl err
      | inr pfConfMap =>
          match ParsePFConfig os pfConfMap lp with
          | inl err => inl err
          | inr pfConf => inr (sessionConf, pfConf)
          end
      end
  end.

Definition resolved_strategy (os : OS) (d : ResourceData) (lp : N)
  : error + option Strategy :=
  match resolve os d lp with
  | inl err => inl err
  | inr (s, p) => inr (Connect_strategy s p)
  end.

End Resolve.
Export Resolve.

(** ** Package [mysql], [session_manager.go]: validation *)

Module MysqlSession.

Record sessionConfig := mkSessionConfig {
  instanceID : string;
  profile : string;
  region : string;
  sshUser : string;
  keyPath : string;
  localPort : N;
  dbEndpoint : string
}.

(** [validateConfig]; [stat p] tells whether [os.Stat(p)] succeeds. *)
Definition validateConfig (stat : string -> bool) (conf : sessionConfig) : option error :=
  let errors : option error := None in
  let errors :=
    if String.eqb (instanceID conf) ""
    then Some (multierror_Append errors [ErrMsg "not set ec2_instance_id"])
    else errors in
  let errors :=
    if String.eqb (dbEndpoint conf) ""
    then Some (multierror_Append errors [ErrMsg "not set rds_endpoint"])
    else errors in
  let errors :=
    if String.eqb (sshUser conf) ""
    then Some (multierror_Append errors [ErrMsg "not set ssh_user"])
    else errors in
  let errors :=
    if String.eqb (keyPath conf) ""
    then Some (multierror_Append errors [ErrMsg "not set ssh_key_path"])
    else errors in
  let errors :=
    if stat (keyPath conf) then errors
    else Some (multierror_Append errors
                 [ErrMsg ("ssh_key_path: " +:+ keyPath conf +:+ " is not exist")]) in
  let errors :=
    if String.eqb (region conf) ""
    then Some (multierror_Append errors [ErrMsg "not set region"])
    else errors in
  errors.

(** The violations [validateConfig] tests for, in the order of its
    checks: each message paired with whether the check fires. *)
Definition checks (stat : string -> bool) (conf : sessionConfig) : list (bool * error) :=
  [ (String.eqb (instanceID conf) "", ErrMsg "not set ec2_instance_id");
    (String.eqb (dbEndpoint conf) "", ErrMsg "not set rds_endpoint");
    (String.eqb (sshUser conf) "", ErrMsg "not set ssh_user");
    (String.eqb (keyPath conf) "", ErrMsg "not set ssh_key_path");
    (negb (stat (keyPath conf)),
     ErrMsg ("ssh_key_path: " +:+ keyPath conf +:+ " is not exist"));
    (String.eqb (region conf) "", ErrMsg "not set region") ].

Definition violations (stat : string -> bool) (conf : sessionConfig) : list error :=
  snd <$> filter (fun c => fst c = true) (checks stat conf).

End MysqlSession.

(** ** Calls that leave the process *)

Module Effects.

(** One call to the outside, as it appears in the trace. *)
Inductive Call :=
| StartSession (document target : string) (parameters : list (string * string))
| TerminateSession (sessionId : string)
| ProcStart
| ProcWait
| ProcKill
| ReadFile (path : string)
| ParsePrivateKey
| HostKeyCallbackNew
| SSHDial (network addr : string)
| SSHNewClientConn (addr : string)
| ClientClose
| Listen (network addr : string)
| GoAcceptLoop (dbEndpoint : string).

(** How the outside answers.  [TerminateSession] may be called more
    than once; its answer depends on how many calls came before. *)
Record World := mkWorld {
  w_StartSession : error + string;
  w_TerminateSession : nat -> option error;
  w_jsonMarshal : option error;
  w_ProcStart : option error;
  w_ProcKill : option error;
  w_ReadFile : string -> option error;
  w_ParsePrivateKey : option error;
  w_HostKeyCallbackNew : option error;
  w_SSHDial : option error;
  w_SSHNewClientConn : option error;
  w_ClientClose : option error;
  w_Listen : option error
}.

(** A computation reads the world and extends the trace. *)
Definition M (A : Type) : Type := World -> list Call -> A * list Call.

Definition ret {A} (a : A) : M A := fun _ t => (a, t).

Definition bind {A B} (m : M A) (k : A -> M B) : M B :=
  fun w t => let '(a, t') := m w t in k a w t'.

Definition call {A} (c : Call) (answer : World -> list Call -> A) : M A :=
  fun w t => (answer w t, t ++ [c]).

Definition run {A} (m : M A) (w : World) : A * list Call := m w [].

Definition isTerminate (c : Call) : bool :=
  match c with
  | TerminateSession _ => true
  | _ => false
  end.

(** How many times [TerminateSession] was called. *)
Fixpoint terminations (t : list Call) : nat :=
  match t with
  | [] => 0
  | c :: rest => (if isTerminate c then 1 else 0) + terminations rest
  end.

End Effects.
Export Effects.

Notation "'let*' x ':=' m 'in' k" := (bind m (fun x => k))
  (at level 10, x name, m at level 100, k at level 200).
Notation "'run*' m 'in' k" := (bind m (fun _ => k))
  (at level 10, m at level 100, k at level 200).

(** ** Package [port_forward]: opening the broker session *)

Module Broker.

(** A started plugin command together with the session it bridges. *)
Record Cmd := mkCmd { cmd_sessionId : string }.

(** The [close] closure built in [openSession] and
    [openRemotePortForwardSession]. *)
Definition closeSession (sessionId : string) : M (option error) :=
  call (TerminateSession sessionId)
       (fun w t => w_TerminateSession w (terminations t)).

(** [sessionManagerPlugin]: only the two [json.Marshal] calls can
    fail. *)
Definition sessionManagerPlugin (sessionId : string) : M (error + Cmd) :=
  fun w t =>
    match w_jsonMarshal w with
    | Some err => (inl err, t)
    | None => (inr {| cmd_sessionId := sessionId |}, t)
    end.

(** The tail shared by [openSession] and
    [openRemotePortForwardSession], after [in] is built. *)
Definition startAndPlug (document target : string) (parameters : list (string * string))
  : M (error + (Cmd * M (option error))) :=
  let* out := call (StartSession document target parameters)
                   (fun w _ => w_StartSession w) in
  match out with
  | inl err => ret (inl err)
  | inr sessionId =>
      let close := closeSession sessionId in
      let* cmd := sessionManagerPlugin sessionId in
      match cmd with
      | inl err =>
          (* defer close() *)
          run* close in
          ret (inl err)
      | inr cmd => ret (inr (cmd, close))
      end
  end.

Definition openSession (instanceID : string) : M (error + (Cmd * M (option error))) :=
  startAndPlug "AWS-StartSSHSession" instanceID [("portNumber", "22")].

(** [host] and [port] of [openRemotePortForwardSession]; [split[0]]
    and [split[1]] panic when out of range, which is [None] here. *)
Definition remoteHostPort (dbEndpoint : string) : option (string * string) :=
  let host := dbEndpoint in
  let port := "3306" in
  if strings_Contains dbEndpoint ":" then
    let split := strings_Split dbEndpoint ":" in
    host ← split !! 0%nat;
    port ← split !! 1%nat;
    Some (host, port)
  else Some (host, port).

(** [openRemotePortForwardSession]; the outer [None] is the index
    panic. *)
Definition openRemotePortForwardSession (instanceID dbEndpoint : string) (localPort : N)
  : option (M (error + (Cmd * M (option error)))) :=
  '(host, port) ← remoteHostPort dbEndpoint;
  Some (startAndPlug "AWS-StartPortForwardingSessionToRemoteHost" instanceID
          [("host", host); ("portNumber", port); ("localPortNumber", itoa localPort)]).

End Broker.
Export Broker.

(** ** Package [port_forward]: SSH client and listener set-up *)

Module Tunnel.

Definition proxyCmd_Start : M (option error) :=
  call ProcStart (fun w _ => w_ProcStart w).

Definition proxyCmd_Kill : M (option error) :=
  call ProcKill (fun w _ => w_ProcKill w).

Definition sshClient_Close : M (option error) :=
  call ClientClose (fun w _ => w_ClientClose w).

(** [CreateSSHClientConfig]: read the key, parse it, build the
    host-key callback. *)
Definition CreateSSHClientConfig (pfConf : portFowardConfig) : M (option error) :=
  let* err := call (ReadFile (keyPath pfConf)) (fun w _ => w_ReadFile w (keyPath pfConf)) in
  match err with
  | Some err => ret (Some err)
  | None =>
      let* err := call ParsePrivateKey (fun w _ => w_ParsePrivateKey w) in
      match err with
      | Some err => ret (Some err)
      | None => call HostKeyCallbackNew (fun w _ => w_HostKeyCallbackNew w)
      end
  end.

(** [CreateSSHClient]. *)
Definition CreateSSHClient (pfConf : portFowardConfig) : M (option error) :=
  call (SSHDial "tcp" (remoteEndpoint pfConf)) (fun w _ => w_SSHDial w).

(** [CreateSSHClientWithProxyCommand]: on success the [done] closure
    that kills the process. *)
Definition CreateSSHClientWithProxyCommand (pfConf : portFowardConfig) (proxyCmd : Cmd)
  : M (error + M (option error)) :=
  let* err := proxyCmd_Start in
  match err with
  | Some err => ret (inl err)
  | None =>
      let done := proxyCmd_Kill in
      let* err := call (SSHNewClientConn (remoteEndpoint pfConf))
                       (fun w _ => w_SSHNewClientConn w) in
      match err with
      | Some err =>
          (* defer done() *)
          run* done in
          ret (inl err)
      | None => ret (inr done)
      end
  end.

(** The address [PortForward] and [portForward] listen on:
    [fmt.Sprintf(":%d", localPort)]. *)
Definition listenAddress (localPort : N) : string :=
  ":" +:+ itoa localPort.

(** [PortForward], up to the start of the accept loop. *)
Definition PortForward (pfConf : portFowardConfig) : M (option error) :=
  let* err := call (Listen "tcp" (listenAddress (localPort pfConf)))
                   (fun w _ => w_Listen w) in
  match err with
  | Some err => ret (Some err)
  | None =>
      run* call (GoAcceptLoop (dbEndpoint pfConf)) (fun _ _ => tt) in
      ret None
  end.

(** [portFowardConfig.Connect], the direct SSH path. *)
Definition pfConf_Connect (pfConf : portFowardConfig) : M (option error) :=
  let* err := CreateSSHClientConfig pfConf in
  match err with
  | Some err => ret (Some err)
  | None =>
      let* err := CreateSSHClient pfConf in
      match err with
      | Some err => ret (Some err)
      | None => PortForward pfConf
      end
  end.

(** [sessionConfig.connect]; the outer [None] is the index panic of
    [openRemotePortForwardSession]. *)
Definition connect (conf : sessionConfig) (pfConf : portFowardConfig)
  : option (M (option error)) :=
  if useRemotePortForward pfConf then
    open ← openRemotePortForwardSession (instanceID conf) (dbEndpoint pfConf) (localPort pfConf);
    Some (
      let* r := open in
      match r with
      | inl err => ret (Some err)
      | inr (proxyCmd, closeSession) =>
          let* err := proxyCmd_Start in
          match err with
          | Some err => ret (Some err)
          | None =>
              run* call ProcWait (fun _ _ => tt) in
              ret None
          end
      end)
  else
    Some (
      let* r := openSession (instanceID conf) in
      match r with
      | inl err => ret (Some err)
      | inr (proxyCmd, closeSession) =>
          let* err := CreateSSHClientConfig pfConf in
          match err with
          | Some err =>
              let errors := err in
              let* err := closeSession in
              let errors :=
                match err with
                | Some err => multierror_Append (Some err) []
                | None => errors
                end in
              run* closeSession in
              ret (Some errors)
          | None =>
              let* r := CreateSSHClientWithProxyCommand pfConf proxyCmd in
              match r with
              | inl err =>
                  let errors := err in
                  let* err := closeSession in
                  let errors :=
                    match err with
                    | Some err => multierror_Append (Some err) []
                    | None => errors
                    end in
                  run* closeSession in
                  ret (Some errors)
              | inr killProxyCmd =>
                  let* err := PortForward pfConf in
                  match err with
                  | Some err =>
                      let errors := err in
                      let* err := sshClient_Close in
                      let errors :=
                        match err with
                        | Some err => multierror_Append (Some err) []
                        | None => errors
                        end in
                      let* err := killProxyCmd in
                      let errors :=
                        match err with
                        | Some err => multierror_Append (Some err) []
                        | None => errors
                        end in
                      let* err := closeSession in
                      let errors :=
                        match err with
                        | Some err => multierror_Append (Some err) []
                        | None => errors
                        end in
                      ret (Some errors)
                  | None => ret None
                  end
              end
          end
      end).

(** [Connect]. *)
Definition Connect (sessConf : option sessionConfig) (pfConf : option portFowardConfig)
  : option (M (option error)) :=
  match pfConf with
  | None => Some (ret None)
  | Some pf =>
      match sessConf with
      | None => Some (pfConf_Connect pf)
      | Some sc => connect sc pf
      end
  end.

End Tunnel.
Export Tunnel.

(** ** The accept loop of [PortForward] and [portForward] *)

Module AcceptLoop.

(** What [listener.Accept] returns in one iteration. *)
Inductive AcceptResult :=
| Accepted (localConn : nat)
| AcceptTimeout
| AcceptFailed (msg : string).

(** What [sshClient.Dial("tcp", dbEndpoint)] returns for an accepted
    connection. *)
Inductive DialResult :=
| Dialed (remoteConn : nat)
| DialFailed (msg : string).

(** The loop's observable state: the lines written to standard error,
    the pairs handed to the two copy goroutines, and whether the
    goroutine has returned (which runs [defer listener.Close()]). *)
Record LoopState := mkLoopState {
  stderr : list string;
  forwarded : list (nat * nat);
  listenerClosed : bool
}.

Definition initial : LoopState :=
  {| stderr := []; forwarded := []; listenerClosed := false |}.

(** One run of the [for] body.  The [done] channel is created by the
    enclosing function and never closed or sent on, so the [select]
    always takes its [default] branch.  The result tells whether the
    loop goes round again. *)
Definition iteration (a : AcceptResult) (d : DialResult) (st : LoopState)
  : LoopState * bool :=
  match a with
  | AcceptTimeout => (st, true)
  | AcceptFailed msg =>
      ({| stderr := stderr st ++ ["accept failed:  " +:+ msg];
          forwarded := forwarded st;
          listenerClosed := true |}, false)
  | Accepted localConn =>
      match d with
      | DialFailed msg =>
          ({| stderr := stderr st ++ ["dial failed:  " +:+ msg];
              forwarded := forwarded st;
              listenerClosed := true |}, false)
      | Dialed remoteConn =>
          ({| stderr := stderr st;
              forwarded := forwarded st ++ [(localConn, remoteConn)];
              listenerClosed := listenerClosed st |}, true)
      end
  end.

(** The goroutine run against a script of answers, one pair per
    iteration (the dial answer is consulted only after a successful
    accept).  At the end of the script a live loop is blocked in
    [Accept]. *)
Fixpoint acceptLoop (script : list (AcceptResult * DialResult)) (st : LoopState)
  : LoopState :=
  match script with
  | [] => st
  | (a, d) :: rest =>
      let '(st', again) := iteration a d st in
      if again then acceptLoop rest st' else st'
  end.

End AcceptLoop.
Export AcceptLoop.

(** ** The two copy goroutines of one forwarded connection *)

Module Forward.

Inductive Direction := LocalToRemote | RemoteToLocal.

(** One forwarded pair: which of the two connections this process has
    closed, and which copy goroutines are still inside [io.Copy]. *)
Record Pair := mkPair {
  localClosed : bool;
  remoteClosed : bool;
  copyingToRemote : bool;
  copyingToLocal : bool
}.

Definition started : Pair :=
  {| localClosed := false; remoteClosed := false;
     copyingToRemote := true; copyingToLocal := true |}.

Definition copying (p : Pair) (d : Direction) : bool :=
  match d with
  | LocalToRemote => copyingToRemote p
  | RemoteToLocal => copyingToLocal p
  end.

(** What a goroutine does once its [io.Copy] has returned.  The first
    one (local to remote) carries [defer localConn.Close()] and
    [defer remoteConn.Close()]; the second one (remote to local) only
    logs a failed copy. *)
Definition copyReturned (d : Direction) (p : Pair) : Pair :=
  match d with
  | LocalToRemote =>
      {| localClosed := true; remoteClosed := true;
         copyingToRemote := false; copyingToLocal := copyingToLocal p |}
  | RemoteToLocal =>
      {| localClosed := localClosed p; remoteClosed := remoteClosed p;
         copyingToRemote := copyingToRemote p; copyingToLocal := false |}
  end.

(** A copy still running returns with an I/O error as soon as one of
    its two connections has been closed by this process. *)
Definition unblocked (p : Pair) (d : Direction) : bool :=
  copying p d && (localClosed p || remoteClosed p).

Definition settle (p : Pair) : Pair :=
  let p := if unblocked p LocalToRemote then copyReturned LocalToRemote p else p in
  if unblocked p RemoteToLocal then copyReturned RemoteToLocal p else p.

(** The copy in direction [d] ends (end of stream or error on the
    peer's side), and the consequences play out. *)
Definition copyEnds (d : Direction) (p : Pair) : Pair :=
  if copying p d then settle (copyReturned d p) else p.

End Forward.
Export Forward.

(** ** Host keys: [net.SplitHostPort] and the [knownhosts] package

    The definitions of this module stand for library code the
    repository calls: [net.SplitHostPort] and, from
    [golang.org/x/crypto/ssh/knownhosts], [New], the callback it
    returns, [Line] and [KeyError]. *)

Module KnownHosts.

Fixpoint indexByte (s : string) (c : ascii) : option nat :=
  match s with
  | EmptyString => None
  | String a r =>
      if Ascii.eqb a c then Some 0%nat
      else S <$> indexByte r c
  end.

Fixpoint lastIndexByte (s : string) (c : ascii) : option nat :=
  match s with
  | EmptyString => None
  | String a r =>
      match lastIndexByte r c with
      | Some i => Some (S i)
      | None => if Ascii.eqb a c then Some 0%nat else None
      end
  end.

(** [s[from:]] and [s[:to]]. *)
Definition sliceFrom (from : nat) (s : string) : string :=
  substring from (String.length s - from) s.

Definition sliceTo (to : nat) (s : string) : string :=
  substring 0 to s.

(** [net.SplitHostPort]; [None] is its error result. *)
Definition SplitHostPort (hostport : string) : option (string * string) :=
  match lastIndexByte hostport ":" with
  | None => None
  | Some i =>
      let port := sliceFrom (S i) hostport in
      match hostport with
      | String "[" _ =>
          match indexByte hostport "]" with
          | None => None
          | Some e =>
              if (S e =? i)%nat then
                let host := substring 1 (e - 1) hostport in
                if strings_Contains (sliceFrom 1 hostport) "["
                   || strings_Contains (sliceFrom (S e) hostport) "]"
                then None
                else Some (host, port)
              else None
          end
      | _ =>
          let host := sliceTo i hostport in
          if strings_Contains host ":"
             || strings_Contains hostport "["
             || strings_Contains hostport "]"
          then None
          else Some (host, port)
      end
  end.

(** A parsed line of the known-hosts file: which host and port it
    matches (whatever the form of its patterns) and the key it
    records. *)
Record Line := mkLine {
  line_matches : string -> string -> bool;
  line_key : PublicKey
}.

(** [keysEqual]: the marshalled bytes agree. *)
Definition keysEqual (a b : PublicKey) : bool :=
  String.eqb (key_blob a) (key_blob b).

(** The host and port a pattern written by [Line] stands for:
    [Normalize] drops port 22 and brackets any other port, and reading
    the line back restores the pair; an address without a port means
    port 22. *)
Definition lineAddr (address : string) : string * string :=
  match SplitHostPort address with
  | Some hp => hp
  | None => (address, "22")
  end.

(** [knownhosts.Line(addresses, key)], as the line reads back. *)
Definition knownhosts_Line (addresses : list string) (key : PublicKey) : Line :=
  {| line_matches := fun host port =>
       existsb (fun a => String.eqb (fst (lineAddr a)) host
                         && String.eqb (snd (lineAddr a)) port) addresses;
     line_key := key |}.

(** The first known key of each algorithm among the lines matching
    the address ([knownKeys] of [checkAddr]), in file order. *)
Fixpoint knownKeys (lines : list Line) (host port : string) (seen : list PublicKey)
  : list PublicKey :=
  match lines with
  | [] => seen
  | l :: rest =>
      if line_matches l host port
         && negb (existsb (fun k => String.eqb (key_type k) (key_type (line_key l))) seen)
      then knownKeys rest host port (seen ++ [line_key l])
      else knownKeys rest host port seen
  end.

(** [hostKeyDB.checkAddr]. *)
Definition checkAddr (lines : list Line) (host port : string) (remoteKey : PublicKey)
  : option error :=
  let known := knownKeys lines host port [] in
  match known with
  | [] => Some (KeyError [])
  | _ =>
      match find (fun k => String.eqb (key_type k) (key_type remoteKey)) known with
      | Some k => if keysEqual k remoteKey then None else Some (KeyError known)
      | None => Some (KeyError known)
      end
  end.

(** [hostKeyDB.check] for a database without revoked keys: the remote
    address must split, and the host name, when given, is the one
    looked up. *)
Definition check (lines : list Line) (address remote : string) (remoteKey : PublicKey)
  : option error :=
  match SplitHostPort remote with
  | None => Some (ErrMsg ("knownhosts: SplitHostPort(" +:+ remote +:+ ")"))
  | Some (host, port) =>
      if String.eqb address "" then checkAddr lines host port remoteKey
      else
        match SplitHostPort address with
        | None => Some (ErrMsg ("knownhosts: SplitHostPort(" +:+ address +:+ ")"))
        | Some (host, port) => checkAddr lines host port remoteKey
        end
  end.

End KnownHosts.
Export KnownHosts.

(** ** [createHostKeyCallback] *)

Module HostKey.

(** [net.Addr]: [Network()] and [String()]. *)
Record Addr := mkAddr { addr_Network : string; addr_String : string }.

(** The file [~/.ssh/known_hosts]: its lines, and whether it can be
    opened for appending. *)
Record KnownHostsFile := mkFile {
  kh_lines : list Line;
  kh_writable : bool
}.

Definition appendLine (l : Line) (f : KnownHostsFile) : KnownHostsFile :=
  {| kh_lines := kh_lines f ++ [l]; kh_writable := kh_writable f |}.

(** The first statement of the closure: a remote address that prints
    as [pipe] is replaced by one that prints as the host name. *)
Definition effectiveRemote (hostname : string) (remote : Addr) : Addr :=
  if String.eqb (addr_String remote) "pipe"
  then {| addr_Network := addr_Network remote; addr_String := hostname |}
  else remote.

(** The closure returned by [createHostKeyCallback].  [cb] is the
    callback of [knownhosts.New]; the file is the one on disk at the
    time of the call. *)
Definition hostKeyCallback (cb : string -> string -> PublicKey -> option error)
    (hostname : string) (remote : Addr) (key : PublicKey) (file : KnownHostsFile)
  : option error * KnownHostsFile :=
  let remote := effectiveRemote hostname remote in
  let err := cb hostname (addr_String remote) key in
  match err with
  | Some (KeyError want) =>
      if (0 <? length want)%nat then (Some (KeyError want), file)
      else if kh_writable file then
        let new_host := knownhosts_Line [addr_String remote] key in
        (None, appendLine new_host file)
      else (Some (ErrMsg "open known_hosts: permission denied"), file)
  | _ => (err, file)
  end.

(** [createHostKeyCallback]: [knownhosts.New] reads the file once,
    here; the closure keeps the lines read.  [None] stands for a file
    that cannot be read (or a missing home directory). *)
Definition createHostKeyCallback (file : option KnownHostsFile)
  : error + (string -> Addr -> PublicKey -> KnownHostsFile -> option error * KnownHostsFile) :=
  match file with
  | None => inl (ErrMsg "open known_hosts: no such file or directory")
  | Some f => inr (hostKeyCallback (check (kh_lines f)))
  end.

(** Two verifications in a row through one callback. *)
Definition verifyTwice (file : KnownHostsFile) (hostname : string) (remote : Addr)
    (key : PublicKey)
  : option ((option error * KnownHostsFile) * (option error * KnownHostsFile)) :=
  match createHostKeyCallback (Some file) with
  | inl _ => None
  | inr callback =>
      let first := callback hostname remote key file in
      let second := callback hostname remote key (snd first) in
      Some (first, second)
  end.

(** Two verifications in a row, each through a callback created for
    it, as each connection set-up does. *)
Definition verifyTwiceFresh (file : KnownHostsFile) (hostname : string) (remote : Addr)
    (key : PublicKey)
  : option ((option error * KnownHostsFile) * (option error * KnownHostsFile)) :=
  match createHostKeyCallback (Some file) with
  | inl _ => None
  | inr callback1 =>
      let first := callback1 hostname remote key file in
      match createHostKeyCallback (Some (snd first)) with
      | inl _ => None
      | inr callback2 =>
          let second := callback2 hostname remote key (snd first) in
          Some (first, second)
      end
  end.

(** Trust on first use is idempotent for a way of verifying twice: the
    second verification succeeds and writes nothing, and the two
    together append at most one line. *)
Definition tofu_idempotent
    (verify : KnownHostsFile -> string -> Addr -> PublicKey ->
              option ((option error * KnownHostsFile) * (option error * KnownHostsFile)))
    (file : KnownHostsFile) (hostname : string) (remote : Addr) (key : PublicKey) : Prop :=
  match verify file hostname remote key with
  | Some ((_, f1), (r2, f2)) =>
      r2 = None /\ f2 = f1
      /\ (length (kh_lines f2) <= S (length (kh_lines file)))%nat
  | None => False
  end.

End HostKey.
Export HostKey.

(** ** Sample inputs *)

Module Samples.

(** A machine with user [alice], whose default key exists. *)
Definition alice_os : OS :=
  {| os_Username := "alice";
     os_UserHomeDir := Some "/home/alice";
     os_Stat := fun p => String.eqb p "/home/alice/.ssh/id_rsa";
     aws_NewSession := fun p r => Some {| sess_profile := p; sess_region := r |} |}.

(** The same machine without any key file. *)
Definition alice_os_without_key : OS :=
  {| os_Username := "alice";
     os_UserHomeDir := Some "/home/alice";
     os_Stat := fun _ => false;
     aws_NewSession := fun p r => Some {| sess_profile := p; sess_region := r |} |}.

(** A broker block with the two required fields and, when given, the
    flag. *)
Definition broker_block (flag : option bool) : gmap string Value :=
  let m : gmap string Value :=
    <["ec2_instance_id" := VString "i-0abc"]>
      (<["rds_endpoint" := VString "db.internal:3306"]> ∅) in
  match flag with
  | Some b => <["use_remote_port_forward" := VBool b]> m
  | None => m
  end.

Definition broker_config (flag : option bool) : ResourceData :=
  {| d_aws_ssm_session_manager_client_config := Some [Some (broker_block flag)];
     d_port_forward_client_config := None |}.

Definition direct_config : ResourceData :=
  {| d_aws_ssm_session_manager_client_config := None;
     d_port_forward_client_config :=
       Some [Some (<["remote_host" := VString "203.0.113.7"]>
                     (<["db_endpoint" := VString "db.internal:3306"]> ∅))] |}.

Definition broker_session : Resolve.sessionConfig :=
  {| Resolve.instanceID := "i-0abc";
     session := Some {| sess_profile := ""; sess_region := "eu-west-1" |} |}.

Definition carrier_plan : portFowardConfig :=
  {| Resolve.sshUser := "alice"; Resolve.keyPath := "/home/alice/.ssh/id_rsa";
     Resolve.localPort := 3307; remoteEndpoint := "i-0abc:22";
     Resolve.dbEndpoint := "db.internal:3306"; useRemotePortForward := false |}.

Definition remote_forward_plan : portFowardConfig :=
  {| Resolve.sshUser := ""; Resolve.keyPath := ""; Resolve.localPort := 3307;
     remoteEndpoint := "i-0abc:22"; Resolve.dbEndpoint := "db.internal:3306";
     useRemotePortForward := true |}.

(** An outside where everything succeeds. *)
Definition fine : World :=
  {| w_StartSession := inr "session-1";
     w_TerminateSession := fun _ => None;
     w_jsonMarshal := None;
     w_ProcStart := None;
     w_ProcKill := None;
     w_ReadFile := fun _ => None;
     w_ParsePrivateKey := None;
     w_HostKeyCallbackNew := None;
     w_SSHDial := None;
     w_SSHNewClientConn := None;
     w_ClientClose := None;
     w_Listen := None |}.

(** The key file cannot be read and the session cannot be
    terminated. *)
Definition unreadable_key : World :=
  {| w_StartSession := inr "session-1";
     w_TerminateSession := fun _ => Some (ErrMsg "TerminateSession: access denied");
     w_jsonMarshal := None;
     w_ProcStart := None;
     w_ProcKill := None;
     w_ReadFile := fun _ => Some (ErrMsg "open id_rsa: permission denied");
     w_ParsePrivateKey := None;
     w_HostKeyCallbackNew := None;
     w_SSHDial := None;
     w_SSHNewClientConn := None;
     w_ClientClose := None;
     w_Listen := None |}.

(** The plugin executable cannot be started. *)
Definition no_plugin : World :=
  {| w_StartSession := inr "session-1";
     w_TerminateSession := fun _ => None;
     w_jsonMarshal := None;
     w_ProcStart := Some (ErrMsg "exec: session-manager-plugin: not found");
     w_ProcKill := None;
     w_ReadFile := fun _ => None;
     w_ParsePrivateKey := None;
     w_HostKeyCallbackNew := None;
     w_SSHDial := None;
     w_SSHNewClientConn := None;
     w_ClientClose := None;
     w_Listen := None |}.

(** The local port is taken, and every release fails. *)
Definition port_taken : World :=
  {| w_StartSession := inr "session-1";
     w_TerminateSession := fun _ => Some (ErrMsg "TerminateSession: access denied");
     w_jsonMarshal := None;
     w_ProcStart := None;
     w_ProcKill := Some (ErrMsg "os: process already finished");
     w_ReadFile := fun _ => None;
     w_ParsePrivateKey := None;
     w_HostKeyCallbackNew := None;
     w_SSHDial := None;
     w_SSHNewClientConn := None;
     w_ClientClose := Some (ErrMsg "close: connection lost");
     w_Listen := Some (ErrMsg "listen tcp :3307: address already in use") |}.

(** A configuration of package [mysql] without key path and region. *)
Definition bare_config : MysqlSession.sessionConfig :=
  {| MysqlSession.instanceID := "i-0abc"; MysqlSession.profile := "";
     MysqlSession.region := ""; MysqlSession.sshUser := "alice";
     MysqlSession.keyPath := ""; MysqlSession.localPort := 3306;
     MysqlSession.dbEndpoint := "db.internal:3306" |}.

(** A broker block without the flag that names an SSH user and key. *)
Definition broker_config_with_principal : ResourceData :=
  {| d_aws_ssm_session_manager_client_config :=
       Some [Some (<["ssh_user" := VString "ec2-user"]>
                     (<["ssh_key_path" := VString "/home/alice/.ssh/bastion.pem"]>
                        (broker_block None)))];
     d_port_forward_client_config := None |}.

Definition rsa_key : PublicKey := {| key_type := "ssh-rsa"; key_blob := "AAAAB3Nza-1" |}.

Definition other_rsa_key : PublicKey := {| key_type := "ssh-rsa"; key_blob := "AAAAB3Nza-2" |}.

Definition empty_file : KnownHostsFile := {| kh_lines := []; kh_writable := true |}.

Definition pipe_addr : Addr := {| addr_Network := "pipe"; addr_String := "pipe" |}.

Definition tcp_addr : Addr := {| addr_Network := "tcp"; addr_String := "203.0.113.7:22" |}.

(** A known-hosts file that records [other_rsa_key] for the instance. *)
Definition recorded_file : KnownHostsFile :=
  {| kh_lines := [knownhosts_Line ["i-0abc:22"] other_rsa_key]; kh_writable := true |}.

End Samples.

(** ** [providerConfigure]: the local port and the network of the endpoint *)

Module Endpoint.

(** The text before and after the first [sep], when there is one. *)
Fixpoint cut (s : string) (sep : ascii) : option (string * string) :=
  match s with
  | EmptyString => None
  | String a r =>
      if Ascii.eqb a sep then Some (EmptyString, r)
      else match cut r sep with
           | Some (h, t) => Some (String a h, t)
           | None => None
           end
  end.

(** [strings.SplitN(s, string(sep), 2)]. *)
Definition strings_SplitN2 (s : string) (sep : ascii) : list string :=
  match cut s sep with
  | Some (h, t) => [h; t]
  | None => [s]
  end.

Definition isDigit (c : ascii) : bool :=
  (48 <=? N_of_ascii c)%N && (N_of_ascii c <=? 57)%N.

Inductive NumError := NoError | ErrSyntax | ErrRange.

Definition maxUint64 : N := 18446744073709551615.

(** The digit loop of [strconv.ParseUint(s, 10, 64)], [n] being the
    value read so far: a byte that is no decimal digit is a syntax
    error, a value beyond 64 bits a range error, reported at once. *)
Fixpoint parseUintLoop (s : string) (n : N) : N * NumError :=
  match s with
  | EmptyString => (n, NoError)
  | String c r =>
      if isDigit c then
        if (maxUint64 / 10 + 1 <=? n)%N then (maxUint64, ErrRange)
        else
          let n1 := (n * 10 + (N_of_ascii c - 48))%N in
          if (maxUint64 <? n1)%N then (maxUint64, ErrRange)
          else parseUintLoop r n1
      else (0%N, ErrSyntax)
  end.

(** The value returned by [strconv.Atoi] on a 64-bit platform (the
    callers drop its error): zero on a syntax error, the nearest bound
    of [int64] on a range error. *)
Definition strconv_Atoi (s : string) : Z :=
  let '(neg, digits) :=
    match s with
    | String "-" r => (true, r)
    | String "+" r => (false, r)
    | _ => (false, s)
    end in
  match digits with
  | EmptyString => 0%Z
  | _ =>
      match parseUintLoop digits 0 with
      | (_, ErrSyntax) => 0%Z
      | (un, _) =>
          if neg then
            if (2 ^ 63 <? un)%N then (- 2 ^ 63)%Z else (- Z.of_N un)%Z
          else
            if (2 ^ 63 <=? un)%N then (2 ^ 63 - 1)%Z else Z.of_N un
      end
  end.

(** The conversion [uint16(lp)]. *)
Definition uint16 (lp : Z) : N := Z.to_N (lp mod 65536).

(** [uint16(lp)] for
    [lp, _ := strconv.Atoi(strings.SplitN(endpoint, ":", 2)[1])];
    [None] is the index panic. *)
Definition localPortOf (endpoint : string) : option N :=
  field ← strings_SplitN2 endpoint ":" !! 1%nat;
  Some (uint16 (strconv_Atoi field)).

(** [proto] of [providerConfigure]. *)
Definition proto (endpoint : string) : string :=
  match endpoint with
  | String "/" _ => "unix"
  | _ => "tcp"
  end.

(** The value of a row of decimal digits read from the left, [acc]
    being the value of the digits before it. *)
Fixpoint decValue (d : Decimal.uint) (acc : N) : N :=
  match d with
  | Decimal.Nil => acc
  | Decimal.D0 l => decValue l (acc * 10 + 0)
  | Decimal.D1 l => decValue l (acc * 10 + 1)
  | Decimal.D2 l => decValue l (acc * 10 + 2)
  | Decimal.D3 l => decValue l (acc * 10 + 3)
  | Decimal.D4 l => decValue l (acc * 10 + 4)
  | Decimal.D5 l => decValue l (acc * 10 + 5)
  | Decimal.D6 l => decValue l (acc * 10 + 6)
  | Decimal.D7 l => decValue l (acc * 10 + 7)
  | Decimal.D8 l => decValue l (acc * 10 + 8)
  | Decimal.D9 l => decValue l (acc * 10 + 9)
  end%N.

End Endpoint.
Export Endpoint.

(** ** [providerConfigure] *)

Module Configure.

(** How [providerConfigure] ends: a run-time panic, an error, or the
    configuration, of which the network of the MySQL address is
    kept. *)
Inductive Outcome :=
| Panicked
| Failed (err : error)
| Configured (net : string).

(** [providerConfigure]; [dialer] is the error of [makeDialer], if
    any. *)
Definition providerConfigure (os : OS) (dialer : option error) (d : ResourceData)
    (endpoint : string) (w : World) : Outcome * list Call :=
  match dialer with
  | Some err => (Failed err, [])
  | None =>
      match ParseSessionConfig os d with
      | inl err => (Failed err, [])
      | inr r =>
          let sessionConf := fst <$> r in
          let pfConfMap := snd <$> r in
          let pfConfMap' :=
            match pfConfMap with
            | None => ParsePFConfigMap os d
            | Some m => inr (Some m)
            end in
          match pfConfMap' with
          | inl err => (Failed err, [])
          | inr pfConfMap =>
              match localPortOf endpoint with
              | None => (Panicked, [])
              | Some lp =>
                  match ParsePFConfig os pfConfMap lp with
                  | inl err => (Failed err, [])
                  | inr pfConf =>
                      match Connect sessionConf pfConf with
                      | None => (Panicked, [])
                      | Some m =>
                          match run m w with
                          | (Some err, t) => (Failed err, t)
                          | (None, t) => (Configured (proto endpoint), t)
                          end
                      end
                  end
              end
          end
      end
  end.

End Configure.
Export Configure.

(** ** Package [mysql], [session_manager.go]: the tunnel *)

Module MysqlTunnel.

(** [createSSHClientConfig]. *)
Definition createSSHClientConfig (user keyPath : string) : M (option error) :=
  let* err := call (ReadFile keyPath) (fun w _ => w_ReadFile w keyPath) in
  match err with
  | Some err => ret (Some err)
  | None =>
      let* err := call ParsePrivateKey (fun w _ => w_ParsePrivateKey w) in
      match err with
      | Some err => ret (Some err)
      | None => call HostKeyCallbackNew (fun w _ => w_HostKeyCallbackNew w)
      end
  end.

(** [createSSHClientWithProxyCommand]. *)
Definition createSSHClientWithProxyCommand (host : string) (port : N) (proxyCmd : Cmd)
  : M (error + M (option error)) :=
  let* err := proxyCmd_Start in
  match err with
  | Some err => ret (inl err)
  | None =>
      let done := proxyCmd_Kill in
      let addr := host +:+ ":" +:+ itoa port in
      let* err := call (SSHNewClientConn addr) (fun w _ => w_SSHNewClientConn w) in
      match err with
      | Some err =>
          (* defer done() *)
          run* done in
          ret (inl err)
      | None => ret (inr done)
      end
  end.

(** [portForward], up to the start of the accept loop. *)
Definition portForward (localPort : N) (remoteEndpoint : string) : M (option error) :=
  let* err := call (Listen "tcp" (listenAddress localPort)) (fun w _ => w_Listen w) in
  match err with
  | Some err => ret (Some err)
  | None =>
      run* call (GoAcceptLoop remoteEndpoint) (fun _ _ => tt) in
      ret None
  end.

(** [connectSession]; [sess] is what [session.NewSessionWithOptions]
    returns. *)
Definition connectSession (conf : option MysqlSession.sessionConfig) (sess : error + Session)
  : M (option error) :=
  match conf with
  | None => ret None
  | Some conf =>
      match sess with
      | inl err => ret (Some err)
      | inr _ =>
          let* r := openSession (MysqlSession.instanceID conf) in
          match r with
          | inl err => ret (Some err)
          | inr (proxyCmd, closeSession) =>
              let* err := createSSHClientConfig (MysqlSession.sshUser conf)
                            (MysqlSession.keyPath conf) in
              match err with
              | Some err =>
                  let errors := err in
                  let* err := closeSession in
                  let errors :=
                    match err with
                    | Some err => multierror_Append (Some err) []
                    | None => errors
                    end in
                  run* closeSession in
                  ret (Some errors)
              | None =>
                  let* r := createSSHClientWithProxyCommand
                              (MysqlSession.instanceID conf) 22 proxyCmd in
                  match r with
                  | inl err =>
                      let errors := err in
                      let* err := closeSession in
                      let errors :=
                        match err with
                        | Some err => multierror_Append (Some err) []
                        | None => errors
                        end in
                      run* closeSession in
                      ret (Some errors)
                  | inr killProxyCmd =>
                      let* err := portForward (MysqlSession.localPort conf)
                                    (MysqlSession.dbEndpoint conf) in
                      match err with
                      | Some err =>
                          let errors := err in
                          let* err := sshClient_Close in
                          let errors :=
                            match err with
                            | Some err => multierror_Append (Some err) []
                            | None => errors
                            end in
                          let* err := killProxyCmd in
                          let errors :=
                            match err with
                            | Some err => multierror_Append (Some err) []
                            | None => errors
                            end in
                          let* err := closeSession in
                          let errors :=
                            match err with
                            | Some err => multierror_Append (Some err) []
                            | None => errors
                            end in
                          ret (Some errors)
                      | None => ret None
                      end
                  end
              end
          end
      end
  end.

(** The plan of package [port_forward] that stands for a configuration
    of package [mysql]. *)
Definition planOf (conf : MysqlSession.sessionConfig) : portFowardConfig :=
  {| Resolve.sshUser := MysqlSession.sshUser conf;
     Resolve.keyPath := MysqlSession.keyPath conf;
     Resolve.localPort := MysqlSession.localPort conf;
     remoteEndpoint := MysqlSession.instanceID conf +:+ ":22";
     Resolve.dbEndpoint := MysqlSession.dbEndpoint conf;
     useRemotePortForward := false |}.

End MysqlTunnel.

(** ** [quoteIdentifier] *)

Module Quote.

(** [identQuoteReplacer.Replace]: every backtick is doubled. *)
Fixpoint identQuoteReplacer_Replace (s : string) : string :=
  match s with
  | EmptyString => EmptyString
  | String c r =>
      if Ascii.eqb c "`" then String "`" (String "`" (identQuoteReplacer_Replace r))
      else String c (identQuoteReplacer_Replace r)
  end.

Definition quoteIdentifier (name : string) : string :=
  "`" +:+ identQuoteReplacer_Replace name +:+ "`".

(** How a quoted identifier is read back: after the opening backtick,
    two backticks stand for one and a single backticks ends the
    name, with nothing after it. *)
Fixpoint readQuotedBody (s : string) : option string :=
  match s with
  | EmptyString => None
  | String c r =>
      if Ascii.eqb c "`" then
        match r with
        | EmptyString => Some EmptyString
        | String c' r' =>
            if Ascii.eqb c' "`" then String "`" <$> readQuotedBody r' else None
        end
      else String c <$> readQuotedBody r
  end.

Definition readQuoted (s : string) : option string :=
  match s with
  | String "`" body => readQuotedBody body
  | _ => None
  end.

End Quote.
Export Quote.

(** ** Runs of the copy goroutines and kinds of calls *)

Module Runs.

(** The copies end in the order given. *)
Definition copiesEnd (ds : list Direction) (p : Pair) : Pair :=
  fold_left (fun p d => copyEnds d p) ds p.

(** Calls that give a resource back. *)
Definition isRelease (c : Call) : bool :=
  match c with
  | TerminateSession _ | ProcKill | ClientClose => true
  | _ => false
  end.

(** An iteration that does not end the accept loop. *)
Definition goesOn (i : AcceptResult * DialResult) : bool :=
  match i with
  | (AcceptTimeout, _) => true
  | (Accepted _, Dialed _) => true
  | _ => false
  end.

(** The pairs an iteration hands to the copy goroutines. *)
Definition served (i : AcceptResult * DialResult) : list (nat * nat) :=
  match i with
  | (Accepted lc, Dialed rc) => [(lc, rc)]
  | _ => []
  end.

(** What holds of a pair however its copies have ended so far. *)
Definition pair_consistent (p : Pair) : Prop :=
  remoteClosed p = localClosed p
  /\ copyingToRemote p = negb (localClosed p)
  /\ (localClosed p = true -> copyingToLocal p = false).

(** An error that reports both a missing key file and an unset
    region, in the words [validateConfig] uses. *)
Definition reports_key_and_region (keyPath : string) (e : error) : Prop :=
  ErrMsg ("ssh_key_path: " +:+ keyPath +:+ " is not exist") ∈ causes e
  /\ ErrMsg "not set region" ∈ causes e.

End Runs.
Export Runs.

(** * Properties *)

(** ** Strings *)

Section StringFacts.

Lemma strings_Split_nonempty s c : strings_Split s c <> [].
Proof.
  destruct s as [|a r]; simpl; [discriminate|].
  destruct (Ascii.eqb a c); [discriminate|].
  destruct (strings_Split r c); discriminate.
Qed.

Lemma strings_Split_no_sep s c :
  strings_Contains s c = false -> strings_Split s c = [s].
Proof.
  induction s as [|a r IH]; simpl; [reflexivity|].
  destruct (Ascii.eqb a c); [discriminate|].
  intros H. rewrite (IH H). reflexivity.
Qed.

(** The first field of a split is the text before the first separator,
    and what follows the separator is split in turn. *)
Lemma strings_Split_first s c :
  strings_Contains s c = true ->
  exists host tail,
    s = host +:+ String c tail
    /\ strings_Contains host c = false
    /\ strings_Split s c = host :: strings_Split tail c.
Proof.
  induction s as [|a r IH]; simpl; [discriminate|].
  destruct (Ascii.eqb a c) eqn:E.
  - intros _. apply Ascii.eqb_eq in E. subst a.
    exists EmptyString, r. repeat split.
  - intros H. destruct (IH H) as (host & tail & -> & Hh & Hs).
    exists (String a host), tail. simpl. rewrite E, Hs. repeat split. exact Hh.
Qed.

Lemma itoa_atoi n : atoi (itoa n) = Some n.
Proof.
  unfold atoi, itoa. rewrite NilEmpty.usu. simpl.
  f_equal. apply DecimalN.Unsigned.of_to.
Qed.

End StringFacts.

Example remoteHostPort_plain : remoteHostPort "db.internal" = Some ("db.internal", "3306").
Proof. reflexivity. Qed.

Example remoteHostPort_port : remoteHostPort "db.internal:3307" = Some ("db.internal", "3307").
Proof. reflexivity. Qed.

Example remoteHostPort_more : remoteHostPort "a:1:b:2" = Some ("a", "1").
Proof. reflexivity. Qed.

Example itoa_samples : itoa 3306 = "3306" /\ itoa 0 = "0" /\ itoa 65535 = "65535".
Proof. repeat split; reflexivity. Qed.

(** ** Remote port forward: host and port of the database endpoint *)

(** The shape of the second field of a split: it runs up to the next
    separator or to the end. *)
Lemma strings_Split_head s c :
  exists field rest,
    s = field +:+ rest
    /\ strings_Contains field c = false
    /\ (rest = "" \/ exists r, rest = String c r)
    /\ strings_Split s c !! 0%nat = Some field.
Proof.
  destruct (strings_Contains s c) eqn:E.
  - destruct (strings_Split_first s c E) as (h & t & -> & Hh & Hs).
    exists h, (String c t). rewrite Hs. repeat split; eauto.
  - exists s, "". rewrite (strings_Split_no_sep s c E). repeat split; eauto.
    clear E. induction s as [|a r IH]; [reflexivity|].
    change (String a r = String a (r +:+ "")). f_equal. exact IH.
Qed.

(** Shape of the host and port [openRemotePortForwardSession]
    computes; in particular the two index expressions never panic. *)
Lemma remoteHostPort_shape (dbEndpoint : string) :
  exists host port,
    remoteHostPort dbEndpoint = Some (host, port)
    /\ (if strings_Contains dbEndpoint ":"
        then exists rest,
               dbEndpoint = host +:+ ":" +:+ port +:+ rest
               /\ strings_Contains host ":" = false
               /\ strings_Contains port ":" = false
               /\ (rest = "" \/ exists r, rest = String ":" r)
        else host = dbEndpoint /\ port = "3306").
Proof.
  unfold remoteHostPort.
  destruct (strings_Contains dbEndpoint ":") eqn:E.
  - destruct (strings_Split_first _ _ E) as (host & tail & Heq & Hh & Hs).
    destruct (strings_Split_head tail ":") as (port & rest & Ht & Hp & Hr & H0).
    exists host, port. rewrite Hs. simpl. rewrite H0. simpl.
    split; [reflexivity|].
    exists rest. subst dbEndpoint tail. repeat split; assumption.
  - exists dbEndpoint, "3306". repeat split.
Qed.

(** The first call of a session opening is [StartSession]. *)
Lemma startAndPlug_first_call document target parameters w :
  snd (run (startAndPlug document target parameters) w) !! 0%nat
  = Some (StartSession document target parameters).
Proof.
  unfold run, startAndPlug, bind, call. simpl.
  destruct (w_StartSession w) as [err|sid]; simpl; [reflexivity|].
  unfold sessionManagerPlugin. destruct (w_jsonMarshal w); reflexivity.
Qed.

(** C10.  In remote-port-forward mode the database endpoint without a
    colon is the host, with port 3306; otherwise the host is the text
    before the first colon and the port the text between the first
    colon and the next one (or the end), whatever follows being
    dropped.  These two strings are the [host] and [portNumber]
    parameters of the session that is started. *)
Theorem openRemotePortForwardSession_host_port (instanceID dbEndpoint : string) (lp : N) :
  exists host port,
    remoteHostPort dbEndpoint = Some (host, port)
    /\ (if strings_Contains dbEndpoint ":"
        then exists rest,
               dbEndpoint = host +:+ ":" +:+ port +:+ rest
               /\ strings_Contains host ":" = false
               /\ strings_Contains port ":" = false
               /\ (rest = "" \/ exists r, rest = String ":" r)
        else host = dbEndpoint /\ port = "3306")
    /\ exists m,
         openRemotePortForwardSession instanceID dbEndpoint lp = Some m
         /\ forall w,
              snd (run m w) !! 0%nat
              = Some (StartSession "AWS-StartPortForwardingSessionToRemoteHost" instanceID
                        [("host", host); ("portNumber", port);
                         ("localPortNumber", itoa lp)]).
Proof.
  destruct (remoteHostPort_shape dbEndpoint) as (host & port & Hhp & Hshape).
  exists host, port. split; [exact Hhp|]. split; [exact Hshape|].
  unfold openRemotePortForwardSession. rewrite Hhp. simpl.
  eexists. split; [reflexivity|]. intros w. apply startAndPlug_first_call.
Qed.

(** ** The listener's address *)

(** C9.  For every local port the listener is opened on the TCP
    address made of a colon and the port in decimal: the host part is
    empty (the wildcard address, every interface), and this is the
    first call of [PortForward] of package [port_forward] and of
    [portForward] of package [mysql], whatever the outside answers;
    when the listener opens the accept loop is started, and otherwise
    the error of [net.Listen] is returned.  The address is not a
    loopback one. *)
Theorem PortForward_listens_on_wildcard
    (pfConf : portFowardConfig) (localPort : N) (remoteEndpoint : string) (w : World) :
  snd (run (PortForward pfConf) w) !! 0%nat
    = Some (Listen "tcp" (listenAddress (Resolve.localPort pfConf)))
  /\ listenAddress (Resolve.localPort pfConf)
     = String ":" (itoa (Resolve.localPort pfConf))
  /\ strings_Split (listenAddress (Resolve.localPort pfConf)) ":" !! 0%nat = Some ""
  /\ atoi (itoa (Resolve.localPort pfConf)) = Some (Resolve.localPort pfConf)
  /\ listenAddress (Resolve.localPort pfConf)
     <> "127.0.0.1:" +:+ itoa (Resolve.localPort pfConf)
  /\ listenAddress (Resolve.localPort pfConf)
     <> "localhost:" +:+ itoa (Resolve.localPort pfConf)
  /\ run (PortForward pfConf) w
     = match w_Listen w with
       | Some err =>
           (Some err, [Listen "tcp" (String ":" (itoa (Resolve.localPort pfConf)))])
       | None =>
           (None, [Listen "tcp" (String ":" (itoa (Resolve.localPort pfConf)));
                   GoAcceptLoop (Resolve.dbEndpoint pfConf)])
       end
  /\ snd (run (MysqlTunnel.portForward localPort remoteEndpoint) w) !! 0%nat
     = Some (Listen "tcp" (String ":" (itoa localPort)))
  /\ run (MysqlTunnel.portForward localPort remoteEndpoint) w
     = match w_Listen w with
       | Some err => (Some err, [Listen "tcp" (String ":" (itoa localPort))])
       | None =>
           (None, [Listen "tcp" (String ":" (itoa localPort));
                   GoAcceptLoop remoteEndpoint])
       end
  /\ strings_Split (String ":" (itoa localPort)) ":" !! 0%nat = Some ""
  /\ atoi (itoa localPort) = Some localPort.
Proof.
  repeat split.
  - unfold run, PortForward, bind, call. simpl.
    destruct (w_Listen w); reflexivity.
  - apply itoa_atoi.
  - discriminate.
  - discriminate.
  - unfold run, PortForward, bind, call, ret. simpl.
    destruct (w_Listen w); reflexivity.
  - unfold run, MysqlTunnel.portForward, bind, call. simpl.
    destruct (w_Listen w); reflexivity.
  - unfold run, MysqlTunnel.portForward, bind, call, ret. simpl.
    destruct (w_Listen w); reflexivity.
  - apply itoa_atoi.
Qed.

Example listenAddress_3306 : listenAddress 3306 = ":3306".
Proof. reflexivity. Qed.

(** ** Validation *)

Section Validation.

Import MysqlSession.

Variable stat : string -> bool.

Lemma Append_nil_one e : multierror_Append None [ErrMsg e] = MultiError [ErrMsg e].
Proof. reflexivity. Qed.

Lemma Append_multi_one es e :
  multierror_Append (Some (MultiError es)) [ErrMsg e] = MultiError (es ++ [ErrMsg e]).
Proof. reflexivity. Qed.

(** [validateConfig] returns nil when nothing is violated and
    otherwise a multierror holding every violation, in the order of
    the checks. *)
Lemma validateConfig_all (conf : sessionConfig) :
  validateConfig stat conf
  = match violations stat conf with
    | [] => None
    | vs => Some (MultiError vs)
    end.
Proof.
  unfold validateConfig, violations, checks.
  destruct (String.eqb (instanceID conf) ""), (String.eqb (dbEndpoint conf) ""),
    (String.eqb (sshUser conf) ""), (String.eqb (keyPath conf) ""),
    (stat (keyPath conf)), (String.eqb (region conf) ""); reflexivity.
Qed.

End Validation.

(** The two validators of package [port_forward] aggregate in the same
    way; neither looks at a region. *)
Lemma portFowardConfig_validate_all (os : OS) (pfConf : portFowardConfig) :
  portFowardConfig_validate os pfConf
  = match (if String.eqb (sshUser pfConf) "" then [ErrMsg "not set ssh_user"] else [])
          ++ (if os_Stat os (keyPath pfConf) then []
              else [ErrMsg ("ssh_key_path: " +:+ keyPath pfConf +:+ " is not exist")]) with
    | [] => None
    | vs => Some (MultiError vs)
    end.
Proof.
  unfold portFowardConfig_validate.
  destruct (String.eqb (sshUser pfConf) ""), (os_Stat os (keyPath pfConf)); reflexivity.
Qed.

Lemma sessionConfig_validate_all (conf : Resolve.sessionConfig) :
  sessionConfig_validate conf
  = match (if String.eqb (Resolve.instanceID conf) ""
           then [ErrMsg "not set ec2_instance_id"] else [])
          ++ (match session conf with
              | None => [ErrMsg "AWS configure is not a valid"]
              | Some _ => []
              end) with
    | [] => None
    | vs => Some (MultiError vs)
    end.
Proof.
  unfold sessionConfig_validate.
  destruct (String.eqb (Resolve.instanceID conf) ""), (session conf); reflexivity.
Qed.

(** Each of the three validators returns one aggregated error that
    holds every check it found violated; and for every configuration
    whose key file does not exist and whose region is unset, the error
    of [validateConfig] holds among them the missing key file and the
    unset region. *)
Theorem validateConfig_mentions_key_and_region
    (stat : string -> bool) (conf : MysqlSession.sessionConfig) :
  stat (MysqlSession.keyPath conf) = false ->
  MysqlSession.region conf = "" ->
  (exists errs,
     MysqlSession.validateConfig stat conf = Some (MultiError errs)
     /\ errs = MysqlSession.violations stat conf
     /\ ErrMsg ("ssh_key_path: " +:+ MysqlSession.keyPath conf +:+ " is not exist") ∈ errs
     /\ ErrMsg "not set region" ∈ errs)
  /\ (forall os pfConf,
        portFowardConfig_validate os pfConf
        = match (if String.eqb (Resolve.sshUser pfConf) ""
                 then [ErrMsg "not set ssh_user"] else [])
                ++ (if os_Stat os (Resolve.keyPath pfConf) then []
                    else [ErrMsg ("ssh_key_path: " +:+ Resolve.keyPath pfConf
                                  +:+ " is not exist")]) with
          | [] => None
          | vs => Some (MultiError vs)
          end)
  /\ (forall sc,
        sessionConfig_validate sc
        = match (if String.eqb (Resolve.instanceID sc) ""
                 then [ErrMsg "not set ec2_instance_id"] else [])
                ++ (match session sc with
                    | None => [ErrMsg "AWS configure is not a valid"]
                    | Some _ => []
                    end) with
          | [] => None
          | vs => Some (MultiError vs)
          end).
Proof.
  intros Hstat Hregion.
  split; [|split; [exact portFowardConfig_validate_all|exact sessionConfig_validate_all]].
  assert (Hkey : ErrMsg ("ssh_key_path: " +:+ MysqlSession.keyPath conf +:+ " is not exist")
                   ∈ MysqlSession.violations stat conf).
  { unfold MysqlSession.violations, MysqlSession.checks.
    apply (list_elem_of_fmap_2 snd _ (true, _)).
    apply list_elem_of_filter. split; [reflexivity|].
    rewrite Hstat. simpl. do 4 apply list_elem_of_further. apply list_elem_of_here. }
  assert (Hreg : ErrMsg "not set region" ∈ MysqlSession.violations stat conf).
  { unfold MysqlSession.violations, MysqlSession.checks.
    apply (list_elem_of_fmap_2 snd _ (true, _)).
    apply list_elem_of_filter. split; [reflexivity|].
    rewrite Hregion. simpl. do 5 apply list_elem_of_further. apply list_elem_of_here. }
  exists (MysqlSession.violations stat conf).
  rewrite validateConfig_all.
  destruct (MysqlSession.violations stat conf) as [|v vs] eqn:E.
  - exfalso. exact (not_elem_of_nil _ Hreg).
  - repeat split; assumption.
Qed.

(** A configuration with nothing but an instance, an endpoint and a
    user: the remaining violations are all reported. *)
Lemma validateConfig_mentions_key_and_region_witness :
  exists errs,
    MysqlSession.validateConfig (fun _ => false) Samples.bare_config
    = Some (MultiError errs)
    /\ errs = MysqlSession.violations (fun _ => false) Samples.bare_config
    /\ ErrMsg ("ssh_key_path: " +:+ MysqlSession.keyPath Samples.bare_config
               +:+ " is not exist") ∈ errs
    /\ ErrMsg "not set region" ∈ errs.
Proof.
  apply (validateConfig_mentions_key_and_region (fun _ => false) Samples.bare_config);
    reflexivity.
Defined.

(** Package [port_forward] has no check on the region: a broker block
    without region, resolved on a machine without key file, is refused
    for the key file alone. *)
Example resolve_without_key_and_region :
  resolve Samples.alice_os_without_key (Samples.broker_config None) 3307
  = inl (MultiError [ErrMsg "ssh_key_path: /home/alice/.ssh/id_rsa is not exist"]).
Proof. vm_compute. reflexivity. Qed.

Example validateConfig_sample :
  MysqlSession.validateConfig (fun _ => false)
    (MysqlSession.mkSessionConfig "i-0abc" "" "" "alice" "/k" 3306 "db:3306")
  = Some (MultiError [ErrMsg "ssh_key_path: /k is not exist"; ErrMsg "not set region"]).
Proof. reflexivity. Qed.

(** ** The accept loop *)

Section AcceptLoopFacts.

(** A timed-out accept leaves the loop running and changes nothing. *)
Lemma acceptLoop_timeout d rest st :
  acceptLoop ((AcceptTimeout, d) :: rest) st = acceptLoop rest st.
Proof. reflexivity. Qed.

(** A connection whose channel opens is handed to the copy goroutines
    and the loop goes on. *)
Lemma acceptLoop_served lc rc rest st :
  acceptLoop ((Accepted lc, Dialed rc) :: rest) st
  = acceptLoop rest {| stderr := stderr st;
                       forwarded := forwarded st ++ [(lc, rc)];
                       listenerClosed := listenerClosed st |}.
Proof. reflexivity. Qed.

(** Once the goroutine has returned, the state no longer depends on
    what else the outside would have answered. *)
Lemma acceptLoop_stops a d st st' rest :
  iteration a d st = (st', false) ->
  acceptLoop ((a, d) :: rest) st = st' /\ listenerClosed st' = true.
Proof.
  intros H. simpl. rewrite H. split; [reflexivity|].
  destruct a as [lc| |msg]; simpl in H.
  - destruct d; inversion H; reflexivity.
  - inversion H.
  - inversion H; reflexivity.
Qed.

End AcceptLoopFacts.

(** C2, what the code does.  When the channel for an accepted
    connection cannot be opened, the goroutine writes the
    [dial failed] line and returns: the listener is closed and no
    later connection of the script is accepted or served, whatever the
    rest of the script holds. *)
Theorem acceptLoop_dial_failure_stops_loop
    (localConn : nat) (msg : string) (rest : list (AcceptResult * DialResult))
    (st : LoopState) :
  acceptLoop ((Accepted localConn, DialFailed msg) :: rest) st
  = {| stderr := stderr st ++ ["dial failed:  " +:+ msg];
       forwarded := forwarded st;
       listenerClosed := true |}.
Proof. reflexivity. Qed.

(** A failed dial followed by a connection that would have been served:
    the second connection never reaches the copy goroutines. *)
Example acceptLoop_second_connection_lost :
  acceptLoop [(Accepted 1, DialFailed "EOF"); (Accepted 2, Dialed 7)] initial
  = {| stderr := ["dial failed:  EOF"]; forwarded := []; listenerClosed := true |}.
Proof. reflexivity. Qed.

(** The same two connections in the other order are both treated. *)
Example acceptLoop_first_connection_served :
  acceptLoop [(Accepted 2, Dialed 7); (Accepted 1, DialFailed "EOF")] initial
  = {| stderr := ["dial failed:  EOF"]; forwarded := [(2, 7)]; listenerClosed := true |}.
Proof. reflexivity. Qed.

(** ** The copy goroutines *)

(** When the copy from the local connection ends, both connections are
    closed and the other copy ends as well. *)
Lemma copyEnds_local_to_remote :
  copyEnds LocalToRemote started
  = {| localClosed := true; remoteClosed := true;
       copyingToRemote := false; copyingToLocal := false |}.
Proof. reflexivity. Qed.

(** C5, what the code does.  When the copy from the remote channel to
    the local connection ends, neither connection is closed and the
    copy from the local connection keeps running: only the goroutine
    of the other direction closes the pair. *)
Theorem copyEnds_remote_to_local_closes_nothing :
  copyEnds RemoteToLocal started
  = {| localClosed := false; remoteClosed := false;
       copyingToRemote := true; copyingToLocal := false |}.
Proof. reflexivity. Qed.

(** Whatever the state of the pair, the goroutine of the remote-to-local
    direction closes nothing when its copy returns. *)
Lemma copyReturned_remote_to_local_keeps p :
  localClosed (copyReturned RemoteToLocal p) = localClosed p
  /\ remoteClosed (copyReturned RemoteToLocal p) = remoteClosed p.
Proof. split; reflexivity. Qed.

(** ** Set-up through the broker: unwinding *)

(** Unfold the calls of a set-up computation down to the answers of
    the outside. *)
Ltac io_unfold :=
  unfold run, openSession, startAndPlug, sessionManagerPlugin,
    CreateSSHClientConfig, CreateSSHClientWithProxyCommand, CreateSSHClient,
    PortForward, closeSession, proxyCmd_Start, proxyCmd_Kill, sshClient_Close,
    bind, call, ret.

(** What [multierror.Append(err)] holds: the causes of [err], nothing
    else. *)
Lemma causes_Append_alone e : causes (multierror_Append (Some e) []) = causes e.
Proof.
  destruct e as [m|want|es]; simpl; try reflexivity.
  rewrite app_nil_r. reflexivity.
Qed.

(** C3, what the code does.  When building the SSH client configuration
    fails with [e0] after the broker session was opened, and
    terminating the session fails with [e1], the error returned holds
    the causes of [e1] only: [e0], the failure that triggered the
    unwind, is not part of it. *)
Theorem connect_unwind_drops_trigger
    (conf : Resolve.sessionConfig) (pfConf : portFowardConfig) (w : World)
    (sessionId : string) (e0 e1 : error) :
  useRemotePortForward pfConf = false ->
  w_StartSession w = inr sessionId ->
  w_jsonMarshal w = None ->
  w_ReadFile w (Resolve.keyPath pfConf) = Some e0 ->
  w_TerminateSession w 0 = Some e1 ->
  exists m returned,
    connect conf pfConf = Some m
    /\ fst (run m w) = Some returned
    /\ causes returned = causes e1
    /\ (e0 ∉ causes e1 -> e0 ∉ causes returned).
Proof.
  intros Hmode Hstart Hjson Hread Hterm.
  unfold connect. rewrite Hmode.
  eexists. exists (multierror_Append (Some e1) []).
  split; [reflexivity|].
  split.
  - io_unfold. rewrite Hstart, Hjson. cbn. rewrite Hread. cbn.
    rewrite Hterm. reflexivity.
  - rewrite causes_Append_alone. split; [reflexivity|]. auto.
Qed.

Lemma connect_unwind_drops_trigger_witness :
  exists m returned,
    connect Samples.broker_session Samples.carrier_plan = Some m
    /\ fst (run m Samples.unreadable_key) = Some returned
    /\ causes returned = causes (ErrMsg "TerminateSession: access denied")
    /\ (ErrMsg "open id_rsa: permission denied"
          ∉ causes (ErrMsg "TerminateSession: access denied") ->
        ErrMsg "open id_rsa: permission denied" ∉ causes returned).
Proof.
  apply (connect_unwind_drops_trigger Samples.broker_session Samples.carrier_plan
           Samples.unreadable_key "session-1"); reflexivity.
Defined.

(** The same run, spelled out: the caller gets the termination failure
    alone, and the session was asked to terminate twice. *)
Example connect_unreadable_key :
  (fun m => run m Samples.unreadable_key)
    <$> connect Samples.broker_session Samples.carrier_plan
  = Some (Some (MultiError [ErrMsg "TerminateSession: access denied"]),
          [StartSession "AWS-StartSSHSession" "i-0abc" [("portNumber", "22")];
           ReadFile "/home/alice/.ssh/id_rsa";
           TerminateSession "session-1";
           TerminateSession "session-1"]).
Proof. reflexivity. Qed.

(** When the listener cannot be opened and the three releases fail one
    after the other, only the failure of the last release is
    returned. *)
Example connect_port_taken :
  (fun m => run m Samples.port_taken)
    <$> connect Samples.broker_session Samples.carrier_plan
  = Some (Some (MultiError [ErrMsg "TerminateSession: access denied"]),
          [StartSession "AWS-StartSSHSession" "i-0abc" [("portNumber", "22")];
           ReadFile "/home/alice/.ssh/id_rsa";
           ParsePrivateKey;
           HostKeyCallbackNew;
           ProcStart;
           SSHNewClientConn "i-0abc:22";
           Listen "tcp" ":3307";
           ClientClose;
           ProcKill;
           TerminateSession "session-1"]).
Proof. reflexivity. Qed.

(** When no release fails, the triggering failure is what the caller
    gets. *)
Lemma connect_unwind_clean
    (conf : Resolve.sessionConfig) (pfConf : portFowardConfig) (w : World)
    (sessionId : string) (e0 : error) :
  useRemotePortForward pfConf = false ->
  w_StartSession w = inr sessionId ->
  w_jsonMarshal w = None ->
  w_ReadFile w (Resolve.keyPath pfConf) = Some e0 ->
  w_TerminateSession w 0 = None ->
  exists m, connect conf pfConf = Some m /\ fst (run m w) = Some e0.
Proof.
  intros Hmode Hstart Hjson Hread Hterm.
  unfold connect. rewrite Hmode. eexists. split; [reflexivity|].
  io_unfold. rewrite Hstart, Hjson. cbn. rewrite Hread. cbn.
  rewrite Hterm. reflexivity.
Qed.

(** ** Set-up through the broker: the plugin process does not start *)

(** In carrier mode the session is asked to terminate when the plugin
    process does not start. *)
Lemma connect_carrier_start_failure_terminates
    (conf : Resolve.sessionConfig) (pfConf : portFowardConfig) (w : World)
    (sessionId : string) (e : error) :
  useRemotePortForward pfConf = false ->
  w_StartSession w = inr sessionId ->
  w_jsonMarshal w = None ->
  w_ReadFile w (Resolve.keyPath pfConf) = None ->
  w_ParsePrivateKey w = None ->
  w_HostKeyCallbackNew w = None ->
  w_ProcStart w = Some e ->
  exists m,
    connect conf pfConf = Some m
    /\ TerminateSession sessionId ∈ snd (run m w)
    /\ terminations (snd (run m w)) = 2%nat.
Proof.
  intros Hmode Hstart Hjson Hread Hparse Hcb Hproc.
  unfold connect. rewrite Hmode. eexists. split; [reflexivity|].
  io_unfold. rewrite Hstart, Hjson. cbn. rewrite Hread. cbn.
  rewrite Hparse. cbn. rewrite Hcb. cbn. rewrite Hproc. cbn.
  split; [|reflexivity].
  do 5 apply list_elem_of_further. apply list_elem_of_here.
Qed.

(** C4, what the code does.  In remote-port-forward mode, when the
    session was started and the plugin process then fails to start,
    [connect] returns that failure after exactly two calls,
    [StartSession] and the start of the process: [TerminateSession] is
    never called and the session stays open. *)
Theorem connect_remote_forward_start_failure_leaves_session
    (conf : Resolve.sessionConfig) (pfConf : portFowardConfig) (w : World)
    (sessionId : string) (e : error) :
  useRemotePortForward pfConf = true ->
  w_StartSession w = inr sessionId ->
  w_jsonMarshal w = None ->
  w_ProcStart w = Some e ->
  exists m host port,
    connect conf pfConf = Some m
    /\ run m w
       = (Some e,
          [StartSession "AWS-StartPortForwardingSessionToRemoteHost"
             (Resolve.instanceID conf)
             [("host", host); ("portNumber", port);
              ("localPortNumber", itoa (Resolve.localPort pfConf))];
           ProcStart])
    /\ terminations (snd (run m w)) = 0%nat.
Proof.
  intros Hmode Hstart Hjson Hproc.
  destruct (remoteHostPort_shape (Resolve.dbEndpoint pfConf)) as (host & port & Hhp & _).
  unfold connect, openRemotePortForwardSession. rewrite Hmode, Hhp. simpl.
  eexists. exists host, port. split; [reflexivity|].
  io_unfold. rewrite Hstart, Hjson. cbn. rewrite Hproc. cbn.
  split; reflexivity.
Qed.

Lemma connect_remote_forward_start_failure_leaves_session_witness :
  exists m host port,
    connect Samples.broker_session Samples.remote_forward_plan = Some m
    /\ run m Samples.no_plugin
       = (Some (ErrMsg "exec: session-manager-plugin: not found"),
          [StartSession "AWS-StartPortForwardingSessionToRemoteHost"
             (Resolve.instanceID Samples.broker_session)
             [("host", host); ("portNumber", port);
              ("localPortNumber", itoa (Resolve.localPort Samples.remote_forward_plan))];
           ProcStart])
    /\ terminations (snd (run m Samples.no_plugin)) = 0%nat.
Proof.
  apply (connect_remote_forward_start_failure_leaves_session
           Samples.broker_session Samples.remote_forward_plan Samples.no_plugin
           "session-1"); reflexivity.
Defined.

Example connect_no_plugin :
  (fun m => run m Samples.no_plugin)
    <$> connect Samples.broker_session Samples.remote_forward_plan
  = Some (Some (ErrMsg "exec: session-manager-plugin: not found"),
          [StartSession "AWS-StartPortForwardingSessionToRemoteHost" "i-0abc"
             [("host", "db.internal"); ("portNumber", "3306");
              ("localPortNumber", "3307")];
           ProcStart]).
Proof. reflexivity. Qed.

(** The same failure in carrier mode, for comparison. *)
Example connect_no_plugin_carrier :
  (fun m => run m Samples.no_plugin)
    <$> connect Samples.broker_session Samples.carrier_plan
  = Some (Some (ErrMsg "exec: session-manager-plugin: not found"),
          [StartSession "AWS-StartSSHSession" "i-0abc" [("portNumber", "22")];
           ReadFile "/home/alice/.ssh/id_rsa";
           ParsePrivateKey;
           HostKeyCallbackNew;
           ProcStart;
           TerminateSession "session-1";
           TerminateSession "session-1"]).
Proof. reflexivity. Qed.

(** ** Configuration resolution *)

Section Resolution.

Variable os : OS.

Lemma nonEmpty_Some s : s <> "" -> nonEmpty (Some s) = Some s.
Proof.
  intros H. unfold nonEmpty. destruct (String.eqb_spec s ""); [contradiction|reflexivity].
Qed.

Lemma nonEmpty_inv o s : nonEmpty o = Some s -> o = Some s /\ s <> "".
Proof.
  unfold nonEmpty. destruct o as [x|]; [|discriminate].
  destruct (String.eqb_spec x ""); [discriminate|].
  intros [= ->]. split; [reflexivity|assumption].
Qed.

(** [ParsePFConfig] on a map that holds a non-empty value under the
    flag's key: the plan is a remote-forward plan without SSH fields,
    and nothing is validated. *)
Lemma ParsePFConfig_flag_present (m : gmap string string) (lp : N) (v : string) :
  m !! "use_remote_port_forward" = Some v ->
  v <> "" ->
  ParsePFConfig os (Some m) lp
  = inr (Some {| Resolve.sshUser := ""; Resolve.keyPath := ""; Resolve.localPort := lp;
                 remoteEndpoint := default "" (nonEmpty (m !! "remote_endpoint"));
                 Resolve.dbEndpoint := default "" (nonEmpty (m !! "db_endpoint"));
                 useRemotePortForward := true |}).
Proof.
  intros Hv Hne. unfold ParsePFConfig.
  case_bool_decide as Hempty.
  - subst m. rewrite lookup_empty in Hv. discriminate.
  - rewrite Hv, (nonEmpty_Some v Hne). reflexivity.
Qed.

(** [ParsePFConfig] on a non-empty map without the flag's key: the
    plan, when there is one, is an SSH plan whose user is set and whose
    key file exists. *)
Lemma ParsePFConfig_flag_absent (m : gmap string string) (lp : N) :
  m <> ∅ ->
  m !! "use_remote_port_forward" = None ->
  let conf :=
    {| Resolve.sshUser := default (os_Username os) (nonEmpty (m !! "ssh_user"));
       Resolve.keyPath := default (defaultSSHKeyPath os) (nonEmpty (m !! "ssh_key_path"));
       Resolve.localPort := lp;
       remoteEndpoint := default "" (nonEmpty (m !! "remote_endpoint"));
       Resolve.dbEndpoint := default "" (nonEmpty (m !! "db_endpoint"));
       useRemotePortForward := false |} in
  ParsePFConfig os (Some m) lp
  = match portFowardConfig_validate os conf with
    | Some err => inl err
    | None => inr (Some conf)
    end.
Proof.
  intros Hne Hflag conf. unfold ParsePFConfig.
  case_bool_decide as Hempty; [contradiction|].
  rewrite Hflag. reflexivity.
Qed.

(** A plan passes [validate] exactly when its user is set and its key
    file exists. *)
Lemma portFowardConfig_validate_None (conf : portFowardConfig) :
  portFowardConfig_validate os conf = None
  <-> Resolve.sshUser conf <> "" /\ os_Stat os (Resolve.keyPath conf) = true.
Proof.
  unfold portFowardConfig_validate.
  destruct (String.eqb_spec (Resolve.sshUser conf) ""),
    (os_Stat os (Resolve.keyPath conf)); split;
    try discriminate; try reflexivity; intros H; try (split; [assumption|reflexivity]);
    destruct H; try contradiction; try discriminate.
Qed.

(** The flag's entry in the map [ParseSessionConfig] hands on: the
    printed boolean when the block holds one, no entry otherwise.  The
    map is never empty. *)
Lemma ParseSessionConfig_flag (d : ResourceData) (confMap : gmap string Value)
    (rest : list (option (gmap string Value))) (sc : Resolve.sessionConfig)
    (m : gmap string string) :
  d_aws_ssm_session_manager_client_config d = Some (Some confMap :: rest) ->
  ParseSessionConfig os d = inr (Some (sc, m)) ->
  m !! "use_remote_port_forward"
    = strconv_FormatBool <$> asBool (confMap !! "use_remote_port_forward")
  /\ m <> ∅.
Proof.
  intros Hd. unfold ParseSessionConfig. rewrite Hd.
  destruct (sessionConfig_validate _); [discriminate|].
  intros [= _ <-].
  assert (Hkeys : "ssh_user" <> "use_remote_port_forward"
                  /\ "ssh_key_path" <> "use_remote_port_forward"
                  /\ "db_endpoint" <> "use_remote_port_forward"
                  /\ "remote_endpoint" <> "use_remote_port_forward")
    by (repeat split; discriminate).
  destruct Hkeys as (K1 & K2 & K3 & K4).
  destruct (nonEmpty (asString (confMap !! "rds_endpoint")));
    destruct (asBool (confMap !! "use_remote_port_forward")) as [[|]|];
    unfold mapGet; simpl;
    repeat first [ rewrite lookup_insert_eq | rewrite lookup_insert_ne by assumption
                 | rewrite lookup_empty ]; simpl;
    destruct (nonEmpty (asString (confMap !! "ssh_user")));
    destruct (nonEmpty (asString (confMap !! "ssh_key_path")));
    repeat first [ rewrite lookup_insert_eq | rewrite lookup_insert_ne by assumption
                 | rewrite lookup_empty ];
    (split; [reflexivity | apply insert_non_empty]).
Qed.

End Resolution.

Section BrokerBlock.

Variables (os : OS) (d : ResourceData) (lp : N).
Variables (confMap : gmap string Value) (rest : list (option (gmap string Value))).
Variables (instance : string) (sess : Session).

Hypothesis Hblock :
  d_aws_ssm_session_manager_client_config d = Some (Some confMap :: rest).
Hypothesis Hinstance :
  nonEmpty (asString (confMap !! "ec2_instance_id")) = Some instance.
Hypothesis Hsession :
  aws_NewSession os
    (default "" (nonEmpty (asString (confMap !! "aws_profile"))))
    (default "" (nonEmpty (asString (confMap !! "region")))) = Some sess.

(** With an instance identifier and an AWS session, the broker block
    parses. *)
Lemma ParseSessionConfig_ok :
  exists m,
    ParseSessionConfig os d
    = inr (Some ({| Resolve.instanceID := instance; session := Some sess |}, m)).
Proof.
  unfold ParseSessionConfig. rewrite Hblock, Hinstance. simpl. rewrite Hsession.
  unfold sessionConfig_validate. simpl.
  destruct (nonEmpty_inv _ _ Hinstance) as [_ Hne].
  destruct (String.eqb_spec instance ""); [contradiction|].
  eexists. reflexivity.
Qed.

(** A block that holds the flag, with either value, resolves to a
    remote-forward plan. *)
Lemma resolve_flag_present (b : bool) :
  confMap !! "use_remote_port_forward" = Some (VBool b) ->
  exists pf,
    resolve os d lp
    = inr (Some {| Resolve.instanceID := instance; session := Some sess |}, Some pf)
    /\ useRemotePortForward pf = true
    /\ Resolve.sshUser pf = ""
    /\ Resolve.keyPath pf = ""
    /\ resolved_strategy os d lp = inr (Some BrokerRemoteForward).
Proof.
  intros Hflag.
  destruct ParseSessionConfig_ok as [m Hm].
  destruct (ParseSessionConfig_flag os d confMap rest _ m Hblock Hm) as [Hlook _].
  rewrite Hflag in Hlook. simpl in Hlook.
  assert (Hne : strconv_FormatBool b <> "") by (destruct b; discriminate).
  pose proof (ParsePFConfig_flag_present os m lp _ Hlook Hne) as Hpf.
  eexists. unfold resolved_strategy, resolve. rewrite Hm.
  cbn -[ParsePFConfig]. rewrite Hpf.
  repeat split.
Qed.

(** Without the flag the map handed on holds the remote endpoint and,
    when given, the database endpoint, and nothing else: the SSH
    fields of the block are not copied. *)
Lemma ParseSessionConfig_flag_absent_map (m : gmap string string) (sc : Resolve.sessionConfig) :
  asBool (confMap !! "use_remote_port_forward") = None ->
  ParseSessionConfig os d = inr (Some (sc, m)) ->
  m !! "use_remote_port_forward" = None
  /\ m !! "ssh_user" = None
  /\ m !! "ssh_key_path" = None
  /\ m <> ∅.
Proof.
  intros Hflag. unfold ParseSessionConfig. rewrite Hblock, Hflag.
  destruct (sessionConfig_validate _); [discriminate|].
  intros [= _ <-].
  destruct (nonEmpty (asString (confMap !! "rds_endpoint")));
    unfold mapGet; simpl;
    repeat first [ rewrite lookup_insert_ne by discriminate | rewrite lookup_empty ];
    simpl;
    repeat first [ rewrite lookup_insert_ne by discriminate | rewrite lookup_empty ];
    (repeat split; apply insert_non_empty).
Qed.

(** A block without the flag resolves, on a machine whose current user
    has a name and whose default key exists, to a carrier plan with
    that user and that key. *)
Lemma resolve_flag_absent :
  asBool (confMap !! "use_remote_port_forward") = None ->
  os_Username os <> "" ->
  os_Stat os (defaultSSHKeyPath os) = true ->
  exists pf,
    resolve os d lp
    = inr (Some {| Resolve.instanceID := instance; session := Some sess |}, Some pf)
    /\ useRemotePortForward pf = false
    /\ Resolve.sshUser pf = os_Username os
    /\ Resolve.keyPath pf = defaultSSHKeyPath os
    /\ resolved_strategy os d lp = inr (Some BrokerSSHCarrier).
Proof.
  intros Hflag Huser Hkey.
  destruct ParseSessionConfig_ok as [m Hm].
  destruct (ParseSessionConfig_flag_absent_map m _ Hflag Hm) as (Hf & Hu & Hk & Hne).
  pose proof (ParsePFConfig_flag_absent os m lp Hne Hf) as Hpf.
  rewrite Hu, Hk in Hpf. cbn -[ParsePFConfig portFowardConfig_validate] in Hpf.
  match type of Hpf with
  | _ = match portFowardConfig_validate os ?c with _ => _ end =>
      assert (Hv : portFowardConfig_validate os c = None)
        by (apply portFowardConfig_validate_None; split; assumption)
  end.
  rewrite Hv in Hpf.
  eexists. unfold resolved_strategy, resolve. rewrite Hm.
  cbn -[ParsePFConfig]. rewrite Hpf.
  repeat split.
Qed.

End BrokerBlock.

(** The direct-SSH block never sets the flag. *)
Lemma ParsePFConfigMap_no_flag (os : OS) (d : ResourceData) (m : gmap string string) :
  ParsePFConfigMap os d = inr (Some m) ->
  m !! "use_remote_port_forward" = None /\ m <> ∅.
Proof.
  unfold ParsePFConfigMap.
  destruct (d_port_forward_client_config d) as [[|[confMap|] rest]|]; try discriminate.
  intros [= <-].
  destruct (nonEmpty (asString (confMap !! "remote_host")));
    destruct (nonEmpty (asString (confMap !! "db_endpoint")));
    destruct (nonEmpty (asString (confMap !! "ssh_user")));
    destruct (nonEmpty (asString (confMap !! "ssh_key_path")));
    repeat first [ rewrite lookup_insert_ne by discriminate | rewrite lookup_empty ];
    (split; [reflexivity | apply insert_non_empty]).
Qed.

(** When only the direct-SSH block is present, a plan that resolves is
    carried out over a direct SSH connection. *)
Lemma resolve_direct (os : OS) (d : ResourceData) (lp : N)
    (sc : option Resolve.sessionConfig) (pf : portFowardConfig) :
  d_aws_ssm_session_manager_client_config d = None ->
  resolve os d lp = inr (sc, Some pf) ->
  sc = None
  /\ useRemotePortForward pf = false
  /\ resolved_strategy os d lp = inr (Some DirectSSH).
Proof.
  intros Hssm Hres. unfold resolved_strategy. rewrite Hres.
  unfold resolve, ParseSessionConfig in Hres. rewrite Hssm in Hres.
  cbn -[ParsePFConfig ParsePFConfigMap] in Hres.
  destruct (ParsePFConfigMap os d) as [err|[m|]] eqn:Hmap; try discriminate.
  destruct (ParsePFConfigMap_no_flag os d m Hmap) as [Hflag Hne].
  rewrite (ParsePFConfig_flag_absent os m lp Hne Hflag) in Hres.
  destruct (portFowardConfig_validate os _); [discriminate|].
  injection Hres as <- <-. repeat split.
Qed.

Example resolve_direct_sample :
  resolved_strategy Samples.alice_os Samples.direct_config 3307 = inr (Some DirectSSH).
Proof. vm_compute. reflexivity. Qed.

Example resolve_broker_samples :
  resolved_strategy Samples.alice_os (Samples.broker_config (Some true)) 3307
    = inr (Some BrokerRemoteForward)
  /\ resolved_strategy Samples.alice_os (Samples.broker_config None) 3307
    = inr (Some BrokerSSHCarrier).
Proof. split; vm_compute; reflexivity. Qed.

(** Without the flag the SSH user and key path named in the block do
    not reach the plan, which takes the current user and the default
    key. *)
Example resolve_flag_absent_ignores_principal :
  resolve Samples.alice_os Samples.broker_config_with_principal 3307
  = inr (Some {| Resolve.instanceID := "i-0abc";
                 session := Some {| sess_profile := ""; sess_region := "" |} |},
         Some {| Resolve.sshUser := "alice";
                 Resolve.keyPath := "/home/alice/.ssh/id_rsa";
                 Resolve.localPort := 3307;
                 remoteEndpoint := "i-0abc:22";
                 Resolve.dbEndpoint := "db.internal:3306";
                 useRemotePortForward := false |}).
Proof. vm_compute. reflexivity. Qed.

(** C1, what the code does.  A broker block whose
    [use_remote_port_forward] is [false] resolves to a plan with
    [useRemotePortForward = true] and empty SSH fields, that is to the
    remote-forward strategy: the printed value ["false"] is a non-empty
    string, and [ParsePFConfig] tests for nothing else. *)
Theorem resolve_flag_false_selects_remote_forward
    (os : OS) (d : ResourceData) (lp : N)
    (confMap : gmap string Value) (rest : list (option (gmap string Value)))
    (instance : string) (sess : Session) :
  d_aws_ssm_session_manager_client_config d = Some (Some confMap :: rest) ->
  nonEmpty (asString (confMap !! "ec2_instance_id")) = Some instance ->
  aws_NewSession os
    (default "" (nonEmpty (asString (confMap !! "aws_profile"))))
    (default "" (nonEmpty (asString (confMap !! "region")))) = Some sess ->
  confMap !! "use_remote_port_forward" = Some (VBool false) ->
  exists pf,
    resolve os d lp
    = inr (Some {| Resolve.instanceID := instance; session := Some sess |}, Some pf)
    /\ useRemotePortForward pf = true
    /\ Resolve.sshUser pf = ""
    /\ Resolve.keyPath pf = ""
    /\ resolved_strategy os d lp = inr (Some BrokerRemoteForward).
Proof.
  intros Hblock Hinstance Hsession Hflag.
  exact (resolve_flag_present os d lp confMap rest instance sess
           Hblock Hinstance Hsession false Hflag).
Qed.

Lemma resolve_flag_false_selects_remote_forward_witness :
  exists pf,
    resolve Samples.alice_os (Samples.broker_config (Some false)) 3307
    = inr (Some {| Resolve.instanceID := "i-0abc";
                   session := Some {| sess_profile := ""; sess_region := "" |} |},
           Some pf)
    /\ useRemotePortForward pf = true
    /\ Resolve.sshUser pf = ""
    /\ Resolve.keyPath pf = ""
    /\ resolved_strategy Samples.alice_os (Samples.broker_config (Some false)) 3307
       = inr (Some BrokerRemoteForward).
Proof.
  apply (resolve_flag_false_selects_remote_forward Samples.alice_os
           (Samples.broker_config (Some false)) 3307
           (Samples.broker_block (Some false)) []);
    vm_compute; reflexivity.
Defined.

(** The map handed on for that block does hold the SSH user and key
    path, which the plan then leaves out. *)
Example ParseSessionConfig_false_flag_map :
  exists sc m,
    ParseSessionConfig Samples.alice_os (Samples.broker_config (Some false))
    = inr (Some (sc, m))
    /\ m !! "use_remote_port_forward" = Some "false"
    /\ m !! "ssh_user" = Some "alice"
    /\ m !! "ssh_key_path" = Some "/home/alice/.ssh/id_rsa".
Proof.
  eexists. eexists. split; [reflexivity|].
  repeat split; vm_compute; reflexivity.
Qed.

(** ** Host keys *)

Section KnownKeys.

Variables (host port : string).

(** Every key collected is either already seen or the key of a line
    that matches the address. *)
Lemma knownKeys_sound lines seen k :
  k ∈ knownKeys lines host port seen ->
  k ∈ seen \/ exists l, l ∈ lines /\ line_matches l host port = true /\ line_key l = k.
Proof.
  revert seen. induction lines as [|l rest IH]; intros seen Hk; simpl in Hk.
  - left. exact Hk.
  - destruct (line_matches l host port) eqn:Hm; simpl in Hk.
    + destruct (negb _) in Hk.
      * apply IH in Hk as [Hk|(l' & Hin & Hm' & Hk')].
        -- apply elem_of_app in Hk as [Hk|Hk]; [left; exact Hk|].
           apply list_elem_of_singleton in Hk. subst k.
           right. exists l. split; [apply list_elem_of_here|]. split; [exact Hm|reflexivity].
        -- right. exists l'. split; [apply list_elem_of_further; exact Hin|]. split; assumption.
      * apply IH in Hk as [Hk|(l' & Hin & Hm' & Hk')]; [left; exact Hk|].
        right. exists l'. split; [apply list_elem_of_further; exact Hin|]. split; assumption.
    + apply IH in Hk as [Hk|(l' & Hin & Hm' & Hk')]; [left; exact Hk|].
      right. exists l'. split; [apply list_elem_of_further; exact Hin|]. split; assumption.
Qed.

(** Keys already seen stay. *)
Lemma knownKeys_keeps lines seen k :
  k ∈ seen -> k ∈ knownKeys lines host port seen.
Proof.
  revert seen. induction lines as [|l rest IH]; intros seen Hk; simpl; [exact Hk|].
  destruct (line_matches l host port && negb _); apply IH; [|exact Hk].
  apply elem_of_app. left. exact Hk.
Qed.

(** A matching line leaves at least one key. *)
Lemma knownKeys_nonempty lines l :
  l ∈ lines -> line_matches l host port = true ->
  knownKeys lines host port [] <> [].
Proof.
  intros Hin Hm.
  assert (G : forall seen, knownKeys lines host port seen <> []).
  { induction lines as [|l0 rest IH]; intros seen; [inversion Hin|].
    simpl. apply elem_of_cons in Hin as [Heq|Hin]; [subst l0|].
    - rewrite Hm. simpl.
      destruct (existsb _ seen) eqn:Hex; simpl.
      + apply existsb_exists in Hex as (k & Hk & _).
        intros Hnil. apply list_elem_of_In in Hk.
        pose proof (knownKeys_keeps rest seen k Hk) as Hk'.
        rewrite Hnil in Hk'. exact (not_elem_of_nil _ Hk').
      + intros Hnil.
        assert (Hk : line_key l ∈ seen ++ [line_key l])
          by (apply elem_of_app; right; apply list_elem_of_here).
        pose proof (knownKeys_keeps rest _ _ Hk) as Hk'.
        rewrite Hnil in Hk'. exact (not_elem_of_nil _ Hk').
    - destruct (line_matches l0 host port && negb _); apply (IH Hin). }
  apply G.
Qed.

Lemma knownKeys_app lines1 lines2 seen :
  knownKeys (lines1 ++ lines2) host port seen
  = knownKeys lines2 host port (knownKeys lines1 host port seen).
Proof.
  revert seen. induction lines1 as [|l rest IH]; intros seen; simpl; [reflexivity|].
  destruct (line_matches l host port && negb _); apply IH.
Qed.

(** A host with a recorded key, presented with a key that differs from
    every recorded one: [checkAddr] answers with a key error whose
    [Want] list is not empty. *)
Lemma checkAddr_mismatch lines key l :
  l ∈ lines -> line_matches l host port = true ->
  (forall l', l' ∈ lines -> line_matches l' host port = true ->
              keysEqual (line_key l') key = false) ->
  exists want, checkAddr lines host port key = Some (KeyError want) /\ want <> [].
Proof.
  intros Hin Hm Hall. unfold checkAddr.
  pose proof (knownKeys_nonempty lines l Hin Hm) as Hne.
  destruct (knownKeys lines host port []) as [|k0 ks] eqn:Hknown; [contradiction|].
  destruct (find _ (k0 :: ks)) as [k|] eqn:Hfind.
  - apply find_some in Hfind as [Hk _].
    apply list_elem_of_In in Hk. rewrite <- Hknown in Hk.
    apply knownKeys_sound in Hk as [Hk|(l' & Hin' & Hm' & <-)];
      [exfalso; exact (not_elem_of_nil _ Hk)|].
    rewrite (Hall l' Hin' Hm'). eexists. split; [reflexivity|discriminate].
  - eexists. split; [reflexivity|discriminate].
Qed.

(** An unknown host is one for which nothing is collected. *)
Lemma checkAddr_unknown lines key :
  checkAddr lines host port key = Some (KeyError []) ->
  knownKeys lines host port [] = [].
Proof.
  unfold checkAddr. destruct (knownKeys lines host port []) as [|k0 ks]; [reflexivity|].
  destruct (find _ (k0 :: ks)) as [k|]; [destruct (keysEqual k key)|]; discriminate.
Qed.

End KnownKeys.

Lemma keysEqual_refl k : keysEqual k k = true.
Proof. unfold keysEqual. apply String.eqb_refl. Qed.

(** After the line for an unknown host has been written, a callback
    made from the file accepts the key. *)
Lemma check_after_append lines hostname key :
  check lines hostname hostname key = Some (KeyError []) ->
  check (lines ++ [knownhosts_Line [hostname] key]) hostname hostname key = None.
Proof.
  unfold check.
  destruct (SplitHostPort hostname) as [[host port]|] eqn:Hsplit; [|discriminate].
  destruct (String.eqb hostname "");
    intros Hunknown%checkAddr_unknown;
    unfold checkAddr; rewrite knownKeys_app, Hunknown; simpl;
    unfold lineAddr; rewrite Hsplit; simpl;
    rewrite !String.eqb_refl; simpl;
    rewrite String.eqb_refl, keysEqual_refl; reflexivity.
Qed.

(** The address handed to [knownhosts] and to [Line] is the host name
    whenever the connection is a pipe or the remote address is the
    host name itself. *)
Lemma effectiveRemote_hostname hostname remote :
  addr_String remote = "pipe" \/ addr_String remote = hostname ->
  addr_String (effectiveRemote hostname remote) = hostname.
Proof.
  unfold effectiveRemote.
  destruct (String.eqb_spec (addr_String remote) "pipe") as [Heq|Hne]; simpl.
  - reflexivity.
  - intros [H|H]; [contradiction|exact H].
Qed.

(** C6.  Whenever the known-hosts callback answers with a key error
    whose [Want] list is not empty (a key is recorded for the host and
    the presented key is not it), the verification callback returns
    that very error and leaves the known-hosts file as it was: nothing
    is appended and nothing is overwritten. *)
Theorem hostKeyCallback_mismatch_is_returned
    (cb : string -> string -> PublicKey -> option error)
    (hostname : string) (remote : Addr) (key : PublicKey) (file : KnownHostsFile)
    (want : list PublicKey) :
  cb hostname (addr_String (effectiveRemote hostname remote)) key = Some (KeyError want) ->
  want <> [] ->
  hostKeyCallback cb hostname remote key file = (Some (KeyError want), file).
Proof.
  intros Hcb Hwant. unfold hostKeyCallback. rewrite Hcb.
  destruct want as [|k ks]; [contradiction|]. reflexivity.
Qed.

Lemma hostKeyCallback_mismatch_is_returned_witness :
  hostKeyCallback (check (kh_lines Samples.recorded_file))
    "i-0abc:22" Samples.pipe_addr Samples.rsa_key Samples.recorded_file
  = (Some (KeyError [Samples.other_rsa_key]), Samples.recorded_file).
Proof.
  apply (hostKeyCallback_mismatch_is_returned (check (kh_lines Samples.recorded_file))
           "i-0abc:22" Samples.pipe_addr Samples.rsa_key Samples.recorded_file
           [Samples.other_rsa_key]).
  - reflexivity.
  - discriminate.
Defined.

(** The same for the callback [createHostKeyCallback] builds from a
    file: a host with a recorded key, presented with a key that is none
    of the recorded ones, is refused and the file is left alone. *)
Lemma createHostKeyCallback_mismatch
    (made file : KnownHostsFile) (hostname host port : string) (remote : Addr)
    (key : PublicKey) (l : Line) :
  addr_String remote = "pipe" \/ addr_String remote = hostname ->
  SplitHostPort hostname = Some (host, port) ->
  l ∈ kh_lines made -> line_matches l host port = true ->
  (forall l', l' ∈ kh_lines made -> line_matches l' host port = true ->
              keysEqual (line_key l') key = false) ->
  exists callback want,
    createHostKeyCallback (Some made) = inr callback
    /\ want <> []
    /\ callback hostname remote key file = (Some (KeyError want), file).
Proof.
  intros Hremote Hsplit Hin Hm Hall.
  destruct (checkAddr_mismatch host port (kh_lines made) key l Hin Hm Hall)
    as (want & Hcheck & Hwant).
  eexists. exists want. split; [reflexivity|]. split; [exact Hwant|].
  unfold hostKeyCallback.
  rewrite (effectiveRemote_hostname hostname remote Hremote).
  unfold check. rewrite Hsplit.
  destruct (String.eqb hostname ""); rewrite Hcheck;
    destruct want; [contradiction|reflexivity|contradiction|reflexivity].
Qed.

(** ** Trust on first use, twice *)

(** One callback, asked twice about an unknown host: it writes the
    same line twice, for it keeps judging by the lines read when it
    was made. *)
Example verifyTwice_appends_twice :
  verifyTwice Samples.empty_file "i-0abc:22" Samples.pipe_addr Samples.rsa_key
  = Some ((None, {| kh_lines := [knownhosts_Line ["i-0abc:22"] Samples.rsa_key];
                    kh_writable := true |}),
          (None, {| kh_lines := [knownhosts_Line ["i-0abc:22"] Samples.rsa_key;
                                 knownhosts_Line ["i-0abc:22"] Samples.rsa_key];
                    kh_writable := true |})).
Proof. reflexivity. Qed.

(** A bastion named by a host name and reached at an IP address: the
    line written names the IP address, the look-up goes by the host
    name, and the next callback writes again. *)
Example verifyTwiceFresh_by_name_appends_twice :
  verifyTwiceFresh Samples.empty_file "bastion.example.com:22" Samples.tcp_addr
    Samples.rsa_key
  = Some ((None, {| kh_lines := [knownhosts_Line ["203.0.113.7:22"] Samples.rsa_key];
                    kh_writable := true |}),
          (None, {| kh_lines := [knownhosts_Line ["203.0.113.7:22"] Samples.rsa_key;
                                 knownhosts_Line ["203.0.113.7:22"] Samples.rsa_key];
                    kh_writable := true |})).
Proof. reflexivity. Qed.

(** Verifying an unknown pair twice through the callback of one
    [createHostKeyCallback] appends two lines; and so does verifying
    twice, each time through a new callback, a bastion whose host name
    is not the address it is reached at. *)
Lemma tofu_not_idempotent :
  ~ tofu_idempotent verifyTwice
      Samples.empty_file "i-0abc:22" Samples.pipe_addr Samples.rsa_key
  /\ ~ tofu_idempotent verifyTwiceFresh
         Samples.empty_file "bastion.example.com:22" Samples.tcp_addr Samples.rsa_key.
Proof.
  split; unfold tofu_idempotent.
  - rewrite verifyTwice_appends_twice. simpl. intros (_ & _ & Hlen). lia.
  - rewrite verifyTwiceFresh_by_name_appends_twice. simpl. intros (_ & _ & Hlen). lia.
Qed.

(** Where the line is written under the name that is looked up, trust
    on first use works as meant: when each verification goes through a
    callback made by [createHostKeyCallback] for it, and the remote
    address is the pipe or the host name itself, a pair whose first
    verification is accepted is accepted again by the second, which
    writes nothing; the first appends at most the one line for the
    pair. *)
Theorem tofu_idempotent_across_callbacks
    (file : KnownHostsFile) (hostname : string) (remote : Addr) (key : PublicKey) :
  addr_String remote = "pipe" \/ addr_String remote = hostname ->
  fst (hostKeyCallback (check (kh_lines file)) hostname remote key file) = None ->
  exists f1,
    verifyTwiceFresh file hostname remote key = Some ((None, f1), (None, f1))
    /\ (f1 = file \/ f1 = appendLine (knownhosts_Line [hostname] key) file)
    /\ tofu_idempotent verifyTwiceFresh file hostname remote key.
Proof.
  intros Hremote Hfirst.
  pose proof (effectiveRemote_hostname hostname remote Hremote) as Heff.
  assert (G : exists f1,
             verifyTwiceFresh file hostname remote key = Some ((None, f1), (None, f1))
             /\ (f1 = file \/ f1 = appendLine (knownhosts_Line [hostname] key) file)).
  { unfold verifyTwiceFresh, createHostKeyCallback.
    unfold hostKeyCallback in *. rewrite Heff in *.
    destruct (check (kh_lines file) hostname hostname key) as [[msg|want|errs]|] eqn:Hcheck;
      simpl in Hfirst; try discriminate.
    - destruct want as [|k ks]; simpl in *; [|discriminate].
      destruct (kh_writable file); simpl in *; [|discriminate].
      rewrite (check_after_append _ _ _ Hcheck).
      eexists. split; [reflexivity|]. right. reflexivity.
    - simpl. rewrite Hcheck. eexists. split; [reflexivity|]. left. reflexivity. }
  destruct G as (f1 & Hrun & Hf1). exists f1. split; [exact Hrun|]. split; [exact Hf1|].
  unfold tofu_idempotent. rewrite Hrun. split; [reflexivity|]. split; [reflexivity|].
  destruct Hf1 as [->| ->]; simpl; [lia|]. rewrite length_app. simpl. lia.
Qed.

Lemma tofu_idempotent_across_callbacks_witness :
  exists f1,
    verifyTwiceFresh Samples.empty_file "i-0abc:22" Samples.pipe_addr Samples.rsa_key
    = Some ((None, f1), (None, f1))
    /\ (f1 = Samples.empty_file
        \/ f1 = appendLine (knownhosts_Line ["i-0abc:22"] Samples.rsa_key) Samples.empty_file)
    /\ tofu_idempotent verifyTwiceFresh
         Samples.empty_file "i-0abc:22" Samples.pipe_addr Samples.rsa_key.
Proof.
  apply (tofu_idempotent_across_callbacks Samples.empty_file "i-0abc:22"
           Samples.pipe_addr Samples.rsa_key).
  - left. reflexivity.
  - reflexivity.
Defined.

(** * Further properties of the code *)

(** ** The local port read from the endpoint *)

Section EndpointFacts.

Lemma cut_None s sep : cut s sep = None <-> strings_Contains s sep = false.
Proof.
  induction s as [|a r IH]; simpl; [tauto|].
  destruct (Ascii.eqb a sep); [split; discriminate|].
  destruct (cut r sep) as [[h t]|]; split; intros H; try discriminate; try reflexivity.
  - apply IH in H. discriminate.
  - apply IH. reflexivity.
Qed.

Lemma cut_append h t sep :
  strings_Contains h sep = false -> cut (h +:+ String sep t) sep = Some (h, t).
Proof.
  induction h as [|a r IH]; simpl.
  - intros _. rewrite Ascii.eqb_refl. reflexivity.
  - destruct (Ascii.eqb a sep); [discriminate|]. intros H.
    change (String a r +:+ String sep t) with (String a (r +:+ String sep t)).
    simpl. destruct (Ascii.eqb a sep); rewrite (IH H); reflexivity.
Qed.

Lemma decValue_ge d acc : (acc <= decValue d acc)%N.
Proof.
  revert acc. induction d as [|l IH|l IH|l IH|l IH|l IH|l IH|l IH|l IH|l IH|l IH];
    intros acc; simpl; [lia| | | | | | | | | |];
    (etransitivity; [|apply IH]); lia.
Qed.

Lemma of_uint_acc_decValue d p : N.pos (Pos.of_uint_acc d p) = decValue d (N.pos p).
Proof.
  revert p. induction d as [|l IH|l IH|l IH|l IH|l IH|l IH|l IH|l IH|l IH|l IH];
    intros p; simpl; [reflexivity| | | | | | | | | |];
    rewrite IH; f_equal; lia.
Qed.

Lemma of_uint_decValue d : N.of_uint d = decValue d 0.
Proof.
  unfold N.of_uint.
  induction d as [|l IH|l IH|l IH|l IH|l IH|l IH|l IH|l IH|l IH|l IH];
    simpl; [reflexivity|exact IH| | | | | | | | |];
    apply of_uint_acc_decValue.
Qed.

(** Digits whose value fits 64 bits are read without error. *)
Lemma parseUintLoop_digits d acc :
  (decValue d acc <= maxUint64)%N ->
  parseUintLoop (NilEmpty.string_of_uint d) acc = (decValue d acc, NoError).
Proof.
  unfold maxUint64.
  revert acc. induction d as [|l IH|l IH|l IH|l IH|l IH|l IH|l IH|l IH|l IH|l IH];
    intros acc Hfit; [reflexivity| | | | | | | | | |];
    cbn [NilEmpty.string_of_uint parseUintLoop]; cbn [decValue] in *;
    match type of Hfit with
    | (decValue ?l' ?a <= _)%N => pose proof (decValue_ge l' a) as Hge
    end;
    change (isDigit _) with true; cbv iota;
    unfold maxUint64;
    (destruct (N.leb_spec (18446744073709551615 / 10 + 1) acc) as [Hc|Hc];
       [change (18446744073709551615 / 10 + 1)%N with 1844674407370955162%N in Hc; lia|]);
    match goal with
    | |- context [N.ltb 18446744073709551615 ?n1] =>
        destruct (N.ltb_spec 18446744073709551615 n1) as [Hn|Hn];
          [cbn in Hn; lia | rewrite <- IH by exact Hfit; reflexivity]
    end.
Qed.

End EndpointFacts.

(** The decimal digits of a number that fits 64 bits are read back as
    that number. *)
Lemma parseUintLoop_itoa n :
  (n <= maxUint64)%N -> parseUintLoop (itoa n) 0 = (n, NoError).
Proof.
  intros Hfit. unfold itoa.
  assert (Hn : decValue (N.to_uint n) 0 = n)
    by (rewrite <- of_uint_decValue; apply DecimalN.Unsigned.of_to).
  rewrite parseUintLoop_digits; rewrite Hn; [reflexivity|exact Hfit].
Qed.

(** The digits of a number start with a digit. *)
Lemma itoa_head n : exists c r, itoa n = String c r /\ isDigit c = true.
Proof.
  unfold itoa.
  assert (Hnil : N.to_uint n <> Decimal.Nil).
  { destruct n as [|p]; [discriminate|]. apply DecimalPos.Unsigned.to_uint_nonnil. }
  destruct (N.to_uint n); [contradiction| | | | | | | | | |];
    simpl; eexists; eexists; (split; [reflexivity|reflexivity]).
Qed.

(** On a text that starts with a digit, [strconv.Atoi] reads an
    unsigned number. *)
Lemma strconv_Atoi_unsigned c r :
  isDigit c = true ->
  strconv_Atoi (String c r)
  = match parseUintLoop (String c r) 0 with
    | (_, ErrSyntax) => 0%Z
    | (un, _) => if (2 ^ 63 <=? un)%N then (2 ^ 63 - 1)%Z else Z.of_N un
    end.
Proof.
  intros Hc. unfold strconv_Atoi.
  destruct c as [[] [] [] [] [] [] [] []]; try discriminate Hc; reflexivity.
Qed.

Lemma strconv_Atoi_itoa n : (n < 2 ^ 63)%N -> strconv_Atoi (itoa n) = Z.of_N n.
Proof.
  intros Hn.
  destruct (itoa_head n) as (c & r & Heq & Hc).
  assert (Hfit : (n <= maxUint64)%N).
  { unfold maxUint64. change (2 ^ 63)%N with 9223372036854775808%N in Hn. lia. }
  pose proof (parseUintLoop_itoa n Hfit) as Hparse.
  rewrite Heq in *. rewrite (strconv_Atoi_unsigned c r Hc), Hparse.
  destruct (N.leb_spec (2 ^ 63) n); [lia|reflexivity].
Qed.

Lemma uint16_of_N n : uint16 (Z.of_N n) = (n mod 65536)%N.
Proof.
  unfold uint16. change 65536%Z with (Z.of_N 65536).
  rewrite <- N2Z.inj_mod. apply N2Z.id.
Qed.

Lemma localPortOf_None endpoint :
  strings_Contains endpoint ":" = false -> localPortOf endpoint = None.
Proof.
  intros H. apply cut_None in H. unfold localPortOf, strings_SplitN2.
  rewrite H. reflexivity.
Qed.

Lemma localPortOf_Some endpoint :
  strings_Contains endpoint ":" = true -> exists lp, localPortOf endpoint = Some lp.
Proof.
  intros H. unfold localPortOf, strings_SplitN2.
  destruct (cut endpoint ":") as [[h t]|] eqn:Hcut.
  - eexists. reflexivity.
  - apply cut_None in Hcut. congruence.
Qed.

(** X1.  The local port computation panics exactly on an endpoint
    without a colon. *)
Theorem localPortOf_panics_iff (endpoint : string) :
  localPortOf endpoint = None <-> strings_Contains endpoint ":" = false.
Proof.
  split; [|apply localPortOf_None].
  destruct (strings_Contains endpoint ":") eqn:H; [|reflexivity].
  destruct (localPortOf_Some endpoint H) as [lp ->]. discriminate.
Qed.

(** X2.  For a host without colon and a port below 2^63 written in
    decimal, the local port is the port modulo 65536: ports up to
    65535 are read back as they are, larger ones wrap around. *)
Theorem localPortOf_decimal (host : string) (n : N) :
  strings_Contains host ":" = false ->
  (n < 2 ^ 63)%N ->
  localPortOf (host +:+ ":" +:+ itoa n) = Some (n mod 65536)%N.
Proof.
  intros Hhost Hn. unfold localPortOf, strings_SplitN2.
  change (host +:+ ":" +:+ itoa n) with (host +:+ String ":" (itoa n)).
  rewrite (cut_append host (itoa n) ":" Hhost). simpl.
  rewrite (strconv_Atoi_itoa n Hn), uint16_of_N. reflexivity.
Qed.

Lemma localPortOf_decimal_witness :
  localPortOf ("localhost" +:+ ":" +:+ itoa 70000) = Some (70000 mod 65536)%N.
Proof.
  apply (localPortOf_decimal "localhost" 70000); [reflexivity|reflexivity].
Defined.

Example localPortOf_samples :
  localPortOf "localhost:3306" = Some 3306%N
  /\ localPortOf "localhost:70000" = Some 4464%N
  /\ localPortOf "localhost:mysql" = Some 0%N
  /\ localPortOf "localhost:-1" = Some 65535%N
  /\ localPortOf "/var/run/mysqld/mysqld.sock" = None.
Proof. repeat split; reflexivity. Qed.

(** ** [providerConfigure] *)

(** X3.  Without any tunnel block and with a working dialer,
    [providerConfigure] makes no call to the outside; it returns the
    configuration when the endpoint holds a colon and panics when it
    does not, as for the path of a Unix socket. *)
Theorem providerConfigure_without_tunnel (os : OS) (endpoint : string) (w : World) :
  providerConfigure os None
    {| d_aws_ssm_session_manager_client_config := None;
       d_port_forward_client_config := None |} endpoint w
  = (if strings_Contains endpoint ":" then Configured (proto endpoint) else Panicked, []).
Proof.
  unfold providerConfigure, ParseSessionConfig, ParsePFConfigMap. simpl.
  destruct (strings_Contains endpoint ":") eqn:H.
  - destruct (localPortOf_Some endpoint H) as [lp ->]. reflexivity.
  - rewrite (localPortOf_None endpoint H). reflexivity.
Qed.

Example providerConfigure_unix_socket :
  providerConfigure Samples.alice_os None
    {| d_aws_ssm_session_manager_client_config := None;
       d_port_forward_client_config := None |}
    "/var/run/mysqld/mysqld.sock" Samples.fine
  = (Panicked, []).
Proof. reflexivity. Qed.

(** ** Configuration resolution, continued *)

Ltac map_lookups :=
  repeat first [ rewrite lookup_insert_eq
               | rewrite lookup_insert_ne by discriminate
               | rewrite lookup_empty ].

Lemma nonEmpty_append a b : b <> "" -> nonEmpty (Some (a +:+ b)) = Some (a +:+ b).
Proof.
  intros Hb. apply nonEmpty_Some. destruct a; [exact Hb|discriminate].
Qed.

Lemma nonEmpty_idem o : nonEmpty (nonEmpty o) = nonEmpty o.
Proof.
  destruct (nonEmpty o) as [s|] eqn:E; [|reflexivity].
  apply nonEmpty_inv in E as [_ Hne]. apply nonEmpty_Some. exact Hne.
Qed.

Lemma default_nonEmpty_self s : default s (nonEmpty (Some s)) = s.
Proof. unfold nonEmpty. destruct (String.eqb s ""); reflexivity. Qed.

Section BrokerClosedForm.

Variables (os : OS) (d : ResourceData) (lp : N).
Variables (confMap : gmap string Value) (rest : list (option (gmap string Value))).

Hypothesis Hblock :
  d_aws_ssm_session_manager_client_config d = Some (Some confMap :: rest).

Let instance := default "" (nonEmpty (asString (confMap !! "ec2_instance_id"))).
Let sc : Resolve.sessionConfig :=
  {| Resolve.instanceID := instance;
     session := aws_NewSession os
                  (default "" (nonEmpty (asString (confMap !! "aws_profile"))))
                  (default "" (nonEmpty (asString (confMap !! "region")))) |}.
Let rds := default "" (nonEmpty (asString (confMap !! "rds_endpoint"))).

(** What a broker block resolves to, in terms of the five entries of
    the block that matter. *)
Lemma resolve_broker_closed_form :
  resolve os d lp
  = match sessionConfig_validate sc with
    | Some err => inl err
    | None =>
        match asBool (confMap !! "use_remote_port_forward") with
        | Some _ =>
            inr (Some sc,
                 Some {| Resolve.sshUser := ""; Resolve.keyPath := "";
                         Resolve.localPort := lp;
                         remoteEndpoint := instance +:+ ":22";
                         Resolve.dbEndpoint := rds;
                         useRemotePortForward := true |})
        | None =>
            let conf :=
              {| Resolve.sshUser := os_Username os;
                 Resolve.keyPath := defaultSSHKeyPath os;
                 Resolve.localPort := lp;
                 remoteEndpoint := instance +:+ ":22";
                 Resolve.dbEndpoint := rds;
                 useRemotePortForward := false |} in
            match portFowardConfig_validate os conf with
            | Some err => inl err
            | None => inr (Some sc, Some conf)
            end
        end
    end.
Proof.
  unfold resolve, ParseSessionConfig. rewrite Hblock. fold instance. fold sc.
  destruct (sessionConfig_validate sc); [reflexivity|].
  cbn -[ParsePFConfig]. unfold ParsePFConfig, rds, mapGet.
  assert (H22 : ":22" <> "") by discriminate.
  destruct (nonEmpty (asString (confMap !! "rds_endpoint"))) as [v|] eqn:Hrds;
    [apply nonEmpty_inv in Hrds as [_ Hv]|];
    destruct (asBool (confMap !! "use_remote_port_forward")) as [[|]|];
    map_lookups; cbn -[nonEmpty String.append bool_decide insert lookup];
    try (destruct (nonEmpty (asString (confMap !! "ssh_user")));
         destruct (nonEmpty (asString (confMap !! "ssh_key_path"))));
    (rewrite bool_decide_eq_false_2 by apply insert_non_empty);
    map_lookups;
    rewrite ?(nonEmpty_append instance ":22" H22), ?(nonEmpty_Some _ Hv);
    cbn -[String.append portFowardConfig_validate];
    try destruct (portFowardConfig_validate os _); reflexivity.
Qed.

End BrokerClosedForm.

Section DirectClosedForm.

Variables (os : OS) (d : ResourceData) (lp : N).
Variables (confMap : gmap string Value) (rest : list (option (gmap string Value))).

Hypothesis Hnone : d_aws_ssm_session_manager_client_config d = None.
Hypothesis Hblock : d_port_forward_client_config d = Some (Some confMap :: rest).

(** What a direct-SSH block resolves to, in terms of its four
    entries. *)
Lemma resolve_direct_closed_form :
  let conf :=
    {| Resolve.sshUser :=
         default (os_Username os) (nonEmpty (asString (confMap !! "ssh_user")));
       Resolve.keyPath :=
         default (defaultSSHKeyPath os) (nonEmpty (asString (confMap !! "ssh_key_path")));
       Resolve.localPort := lp;
       remoteEndpoint :=
         match nonEmpty (asString (confMap !! "remote_host")) with
         | Some v => v +:+ ":22"
         | None => ""
         end;
       Resolve.dbEndpoint := default "" (nonEmpty (asString (confMap !! "db_endpoint")));
       useRemotePortForward := false |} in
  resolve os d lp
  = match portFowardConfig_validate os conf with
    | Some err => inl err
    | None => inr (None, Some conf)
    end.
Proof.
  unfold resolve, ParseSessionConfig, ParsePFConfigMap. rewrite Hnone, Hblock.
  cbn -[ParsePFConfig]. unfold ParsePFConfig.
  assert (H22 : ":22" <> "") by discriminate.
  destruct (nonEmpty (asString (confMap !! "remote_host"))) as [h|] eqn:Hh;
    destruct (nonEmpty (asString (confMap !! "db_endpoint"))) as [e|] eqn:He;
    [apply nonEmpty_inv in He as [_ He]| |apply nonEmpty_inv in He as [_ He]|];
    destruct (nonEmpty (asString (confMap !! "ssh_user"))) as [u|] eqn:Hu;
    try (apply nonEmpty_inv in Hu as [_ Hu]);
    destruct (nonEmpty (asString (confMap !! "ssh_key_path"))) as [k|] eqn:Hk;
    try (apply nonEmpty_inv in Hk as [_ Hk]);
    (rewrite bool_decide_eq_false_2 by apply insert_non_empty);
    map_lookups;
    rewrite ?(nonEmpty_append h ":22" H22), ?default_nonEmpty_self;
    repeat match goal with
           | H : ?x <> "" |- _ => rewrite (nonEmpty_Some x H); clear H
           end;
    cbn -[String.append portFowardConfig_validate];
    destruct (portFowardConfig_validate os _); reflexivity.
Qed.

End DirectClosedForm.

Lemma sessionConfig_validate_multi sc err :
  sessionConfig_validate sc = Some err -> exists errs, err = MultiError errs.
Proof.
  rewrite sessionConfig_validate_all.
  destruct (_ ++ _); [discriminate|]. intros [= <-]. eauto.
Qed.

Lemma portFowardConfig_validate_multi os pf err :
  portFowardConfig_validate os pf = Some err -> exists errs, err = MultiError errs.
Proof.
  rewrite portFowardConfig_validate_all.
  destruct (_ ++ _); [discriminate|]. intros [= <-]. eauto.
Qed.

(** X5.  A broker block takes precedence: once it is present, the
    direct-SSH block has no influence on what the configuration
    resolves to, be it a plan or an error. *)
Theorem resolve_broker_precedence
    (os : OS) (d : ResourceData) (lp : N) (other : Block) :
  d_aws_ssm_session_manager_client_config d <> None ->
  resolve os d lp
  = resolve os {| d_aws_ssm_session_manager_client_config :=
                    d_aws_ssm_session_manager_client_config d;
                  d_port_forward_client_config := other |} lp.
Proof.
  intros Hsome.
  destruct (d_aws_ssm_session_manager_client_config d) as [[|[confMap|] rest]|] eqn:Hd;
    [| | |contradiction].
  - unfold resolve, ParseSessionConfig. simpl. rewrite Hd. reflexivity.
  - rewrite (resolve_broker_closed_form os d lp confMap rest Hd).
    rewrite (resolve_broker_closed_form os
               (mkResourceData (Some (Some confMap :: rest)) other)
               lp confMap rest eq_refl).
    reflexivity.
  - unfold resolve, ParseSessionConfig. simpl. rewrite Hd. reflexivity.
Qed.

Lemma resolve_broker_precedence_witness :
  resolve Samples.alice_os (Samples.broker_config (Some true)) 3307
  = resolve Samples.alice_os
      {| d_aws_ssm_session_manager_client_config :=
           d_aws_ssm_session_manager_client_config (Samples.broker_config (Some true));
         d_port_forward_client_config :=
           d_port_forward_client_config Samples.direct_config |} 3307.
Proof.
  apply (resolve_broker_precedence Samples.alice_os (Samples.broker_config (Some true))
           3307 (d_port_forward_client_config Samples.direct_config)).
  discriminate.
Defined.

(** X6.  The format error of [ParsePFConfig] (an empty map) cannot come
    out of the resolution: the maps the two block parsers build are
    never empty. *)
Theorem resolve_never_empty_map_error (os : OS) (d : ResourceData) (lp : N) :
  resolve os d lp <> inl (ErrMsg "parseSSHConfig's format validate").
Proof.
  destruct (d_aws_ssm_session_manager_client_config d) as [[|[confMap|] rest]|] eqn:Hd.
  - unfold resolve, ParseSessionConfig. rewrite Hd. discriminate.
  - rewrite (resolve_broker_closed_form os d lp confMap rest Hd).
    destruct (sessionConfig_validate _) as [err|] eqn:Hv.
    + apply sessionConfig_validate_multi in Hv as [errs ->]. discriminate.
    + destruct (asBool _); [discriminate|]. cbv zeta.
      destruct (portFowardConfig_validate os _) as [err|] eqn:Hp; [|discriminate].
      apply portFowardConfig_validate_multi in Hp as [errs ->]. discriminate.
  - unfold resolve, ParseSessionConfig. rewrite Hd. discriminate.
  - destruct (d_port_forward_client_config d) as [[|[confMap|] rest]|] eqn:Hp.
    + unfold resolve, ParseSessionConfig, ParsePFConfigMap. rewrite Hd, Hp. discriminate.
    + rewrite (resolve_direct_closed_form os d lp confMap rest Hd Hp). cbv zeta.
      destruct (portFowardConfig_validate os _) as [err|] eqn:Hv; [|discriminate].
      apply portFowardConfig_validate_multi in Hv as [errs ->]. discriminate.
    + unfold resolve, ParseSessionConfig, ParsePFConfigMap. rewrite Hd, Hp. discriminate.
    + unfold resolve, ParseSessionConfig, ParsePFConfigMap. rewrite Hd, Hp. discriminate.
Qed.

(** X7.  A well-formed broker block is refused by [ParseSessionConfig]
    exactly when it holds no non-empty string as instance identifier
    or no AWS session can be built for its profile and region. *)
Theorem ParseSessionConfig_error_iff
    (os : OS) (d : ResourceData)
    (confMap : gmap string Value) (rest : list (option (gmap string Value))) :
  d_aws_ssm_session_manager_client_config d = Some (Some confMap :: rest) ->
  (exists err, ParseSessionConfig os d = inl err)
  <-> (nonEmpty (asString (confMap !! "ec2_instance_id")) = None
       \/ aws_NewSession os
            (default "" (nonEmpty (asString (confMap !! "aws_profile"))))
            (default "" (nonEmpty (asString (confMap !! "region")))) = None).
Proof.
  intros Hblock. unfold ParseSessionConfig. rewrite Hblock.
  unfold sessionConfig_validate. cbn [Resolve.instanceID session].
  destruct (nonEmpty (asString (confMap !! "ec2_instance_id"))) as [i|] eqn:Hi;
    [apply nonEmpty_inv in Hi as [_ Hi]; apply String.eqb_neq in Hi|];
    destruct (aws_NewSession os _ _) as [s|]; simpl; rewrite ?Hi;
    split; intros H;
    first [ destruct H as [err H]; discriminate H
          | destruct H as [H|H]; discriminate H
          | eexists; reflexivity
          | left; reflexivity
          | right; reflexivity ].
Qed.

Lemma ParseSessionConfig_error_iff_witness :
  (exists err,
     ParseSessionConfig Samples.alice_os
       {| d_aws_ssm_session_manager_client_config := Some [Some ∅];
          d_port_forward_client_config := None |} = inl err)
  <-> (nonEmpty (asString ((∅ : gmap string Value) !! "ec2_instance_id")) = None
       \/ aws_NewSession Samples.alice_os
            (default "" (nonEmpty (asString ((∅ : gmap string Value) !! "aws_profile"))))
            (default "" (nonEmpty (asString ((∅ : gmap string Value) !! "region")))) = None).
Proof.
  apply (ParseSessionConfig_error_iff Samples.alice_os
           {| d_aws_ssm_session_manager_client_config := Some [Some ∅];
              d_port_forward_client_config := None |} ∅ []).
  reflexivity.
Defined.

(** X8.  Of a broker block only the instance identifier, the profile,
    the region, the database endpoint and the flag count: two blocks
    that agree on these five entries resolve alike, whatever their
    [ssh_user] and [ssh_key_path]. *)
Theorem resolve_broker_ignores_ssh_fields
    (os : OS) (d d' : ResourceData) (lp : N)
    (confMap confMap' : gmap string Value)
    (rest rest' : list (option (gmap string Value))) :
  d_aws_ssm_session_manager_client_config d = Some (Some confMap :: rest) ->
  d_aws_ssm_session_manager_client_config d' = Some (Some confMap' :: rest') ->
  confMap !! "ec2_instance_id" = confMap' !! "ec2_instance_id" ->
  confMap !! "aws_profile" = confMap' !! "aws_profile" ->
  confMap !! "region" = confMap' !! "region" ->
  confMap !! "rds_endpoint" = confMap' !! "rds_endpoint" ->
  confMap !! "use_remote_port_forward" = confMap' !! "use_remote_port_forward" ->
  resolve os d lp = resolve os d' lp.
Proof.
  intros Hd Hd' Hi Hp Hr He Hf.
  rewrite (resolve_broker_closed_form os d lp confMap rest Hd).
  rewrite (resolve_broker_closed_form os d' lp confMap' rest' Hd').
  rewrite Hi, Hp, Hr, He, Hf. reflexivity.
Qed.

Lemma resolve_broker_ignores_ssh_fields_witness :
  resolve Samples.alice_os (Samples.broker_config None) 3307
  = resolve Samples.alice_os Samples.broker_config_with_principal 3307.
Proof.
  apply (resolve_broker_ignores_ssh_fields Samples.alice_os
           (Samples.broker_config None) Samples.broker_config_with_principal 3307
           (Samples.broker_block None)
           (<["ssh_user" := VString "ec2-user"]>
              (<["ssh_key_path" := VString "/home/alice/.ssh/bastion.pem"]>
                 (Samples.broker_block None)))
           [] []);
    vm_compute; reflexivity.
Defined.

(** ** Set-up through the broker, continued *)

Ltac in_trace := apply list_elem_of_In; simpl; tauto.

(** X10.  In carrier mode [connect] returns nil exactly when the
    session starts, the plugin command is built, the key is read and
    parsed, the host-key callback is made, the process starts, the SSH
    handshake succeeds and the listener opens; the calls are then these
    eight, in this order, and nothing is released. *)
Theorem connect_carrier_succeeds_iff
    (conf : Resolve.sessionConfig) (pfConf : portFowardConfig) (w : World) :
  useRemotePortForward pfConf = false ->
  exists m,
    connect conf pfConf = Some m
    /\ (fst (run m w) = None
        <-> (exists sessionId, w_StartSession w = inr sessionId)
            /\ w_jsonMarshal w = None
            /\ w_ReadFile w (Resolve.keyPath pfConf) = None
            /\ w_ParsePrivateKey w = None
            /\ w_HostKeyCallbackNew w = None
            /\ w_ProcStart w = None
            /\ w_SSHNewClientConn w = None
            /\ w_Listen w = None)
    /\ (fst (run m w) = None ->
        snd (run m w)
        = [StartSession "AWS-StartSSHSession" (Resolve.instanceID conf)
             [("portNumber", "22")];
           ReadFile (Resolve.keyPath pfConf);
           ParsePrivateKey;
           HostKeyCallbackNew;
           ProcStart;
           SSHNewClientConn (remoteEndpoint pfConf);
           Listen "tcp" (listenAddress (Resolve.localPort pfConf));
           GoAcceptLoop (Resolve.dbEndpoint pfConf)]).
Proof.
  intros Hmode. unfold connect. rewrite Hmode. eexists. split; [reflexivity|].
  io_unfold.
  destruct (w_StartSession w) as [e|sid]; cbn;
    [split; [split; [discriminate|intros ((s & H) & _); discriminate]|discriminate]|].
  destruct (w_jsonMarshal w); cbn;
    [split; [split; [discriminate|intros (_ & H & _); discriminate]|discriminate]|].
  destruct (w_ReadFile w (Resolve.keyPath pfConf)); cbn;
    [split; [split; [discriminate|intros (_ & _ & H & _); discriminate]|discriminate]|].
  destruct (w_ParsePrivateKey w); cbn;
    [split; [split; [discriminate|intros (_ & _ & _ & H & _); discriminate]|discriminate]|].
  destruct (w_HostKeyCallbackNew w); cbn;
    [split; [split; [discriminate|intros (_ & _ & _ & _ & H & _); discriminate]
            |discriminate]|].
  destruct (w_ProcStart w); cbn;
    [split; [split; [discriminate|intros (_ & _ & _ & _ & _ & H & _); discriminate]
            |discriminate]|].
  destruct (w_SSHNewClientConn w); cbn;
    [split; [split; [discriminate|intros (_ & _ & _ & _ & _ & _ & H & _); discriminate]
            |discriminate]|].
  destruct (w_Listen w); cbn;
    [split; [split; [discriminate|intros (_ & _ & _ & _ & _ & _ & _ & H); discriminate]
            |discriminate]|].
  split; [split; [intros _; repeat split; eauto|reflexivity]|reflexivity].
Qed.

Lemma connect_carrier_succeeds_iff_witness :
  exists m,
    connect Samples.broker_session Samples.carrier_plan = Some m
    /\ (fst (run m Samples.fine) = None
        <-> (exists sessionId, w_StartSession Samples.fine = inr sessionId)
            /\ w_jsonMarshal Samples.fine = None
            /\ w_ReadFile Samples.fine (Resolve.keyPath Samples.carrier_plan) = None
            /\ w_ParsePrivateKey Samples.fine = None
            /\ w_HostKeyCallbackNew Samples.fine = None
            /\ w_ProcStart Samples.fine = None
            /\ w_SSHNewClientConn Samples.fine = None
            /\ w_Listen Samples.fine = None)
    /\ (fst (run m Samples.fine) = None ->
        snd (run m Samples.fine)
        = [StartSession "AWS-StartSSHSession" (Resolve.instanceID Samples.broker_session)
             [("portNumber", "22")];
           ReadFile (Resolve.keyPath Samples.carrier_plan);
           ParsePrivateKey;
           HostKeyCallbackNew;
           ProcStart;
           SSHNewClientConn (remoteEndpoint Samples.carrier_plan);
           Listen "tcp" (listenAddress (Resolve.localPort Samples.carrier_plan));
           GoAcceptLoop (Resolve.dbEndpoint Samples.carrier_plan)]).
Proof.
  apply (connect_carrier_succeeds_iff Samples.broker_session Samples.carrier_plan
           Samples.fine).
  reflexivity.
Defined.

(** X11.  When everything up to the handshake succeeds and the listener
    cannot be opened, [connect] closes the SSH client, kills the
    process and terminates the session, in this order and each of them
    whatever the others answer; it returns the failure of the last
    release that failed, or the failure of the listener when none
    did. *)
Theorem connect_listen_failure_unwinds
    (conf : Resolve.sessionConfig) (pfConf : portFowardConfig) (w : World)
    (sessionId : string) (e : error) :
  useRemotePortForward pfConf = false ->
  w_StartSession w = inr sessionId ->
  w_jsonMarshal w = None ->
  w_ReadFile w (Resolve.keyPath pfConf) = None ->
  w_ParsePrivateKey w = None ->
  w_HostKeyCallbackNew w = None ->
  w_ProcStart w = None ->
  w_SSHNewClientConn w = None ->
  w_Listen w = Some e ->
  exists m,
    connect conf pfConf = Some m
    /\ snd (run m w)
       = [StartSession "AWS-StartSSHSession" (Resolve.instanceID conf)
            [("portNumber", "22")];
          ReadFile (Resolve.keyPath pfConf);
          ParsePrivateKey;
          HostKeyCallbackNew;
          ProcStart;
          SSHNewClientConn (remoteEndpoint pfConf);
          Listen "tcp" (listenAddress (Resolve.localPort pfConf));
          ClientClose;
          ProcKill;
          TerminateSession sessionId]
    /\ fst (run m w)
       = Some match w_TerminateSession w 0 with
              | Some e3 => multierror_Append (Some e3) []
              | None =>
                  match w_ProcKill w with
                  | Some e2 => multierror_Append (Some e2) []
                  | None =>
                      match w_ClientClose w with
                      | Some e1 => multierror_Append (Some e1) []
                      | None => e
                      end
                  end
              end.
Proof.
  intros Hmode H1 H2 H3 H4 H5 H6 H7 H8.
  unfold connect. rewrite Hmode. eexists. split; [reflexivity|].
  io_unfold. rewrite H1, H2. cbn. rewrite H3. cbn. rewrite H4. cbn. rewrite H5. cbn.
  rewrite H6. cbn. rewrite H7. cbn. rewrite H8. cbn.
  split; reflexivity.
Qed.

Lemma connect_listen_failure_unwinds_witness :
  exists m,
    connect Samples.broker_session Samples.carrier_plan = Some m
    /\ snd (run m Samples.port_taken)
       = [StartSession "AWS-StartSSHSession" (Resolve.instanceID Samples.broker_session)
            [("portNumber", "22")];
          ReadFile (Resolve.keyPath Samples.carrier_plan);
          ParsePrivateKey;
          HostKeyCallbackNew;
          ProcStart;
          SSHNewClientConn (remoteEndpoint Samples.carrier_plan);
          Listen "tcp" (listenAddress (Resolve.localPort Samples.carrier_plan));
          ClientClose;
          ProcKill;
          TerminateSession "session-1"]
    /\ fst (run m Samples.port_taken)
       = Some match w_TerminateSession Samples.port_taken 0 with
              | Some e3 => multierror_Append (Some e3) []
              | None =>
                  match w_ProcKill Samples.port_taken with
                  | Some e2 => multierror_Append (Some e2) []
                  | None =>
                      match w_ClientClose Samples.port_taken with
                      | Some e1 => multierror_Append (Some e1) []
                      | None => ErrMsg "listen tcp :3307: address already in use"
                      end
                  end
              end.
Proof.
  apply (connect_listen_failure_unwinds Samples.broker_session Samples.carrier_plan
           Samples.port_taken "session-1"); reflexivity.
Defined.

(** X12.  When the session has started and the plugin command cannot
    be built, [openSession] and [openRemotePortForwardSession]
    terminate the session, once, before they return the failure; what
    the termination answers is dropped. *)
Theorem startAndPlug_marshal_failure_terminates
    (document target : string) (parameters : list (string * string)) (w : World)
    (sessionId : string) (e : error) :
  w_StartSession w = inr sessionId ->
  w_jsonMarshal w = Some e ->
  fst (run (startAndPlug document target parameters) w) = inl e
  /\ snd (run (startAndPlug document target parameters) w)
     = [StartSession document target parameters; TerminateSession sessionId].
Proof.
  intros H1 H2. unfold run, startAndPlug, sessionManagerPlugin, closeSession, bind, call, ret.
  rewrite H1, H2. cbn. split; reflexivity.
Qed.

Lemma startAndPlug_marshal_failure_terminates_witness :
  snd (run (openSession "i-0abc")
         {| w_StartSession := inr "session-1";
            w_TerminateSession := fun _ => Some (ErrMsg "TerminateSession: access denied");
            w_jsonMarshal := Some (ErrMsg "json: unsupported value");
            w_ProcStart := None; w_ProcKill := None;
            w_ReadFile := fun _ => None; w_ParsePrivateKey := None;
            w_HostKeyCallbackNew := None; w_SSHDial := None;
            w_SSHNewClientConn := None; w_ClientClose := None; w_Listen := None |})
  = [StartSession "AWS-StartSSHSession" "i-0abc" [("portNumber", "22")];
     TerminateSession "session-1"].
Proof.
  refine (proj2 (startAndPlug_marshal_failure_terminates
                   "AWS-StartSSHSession" "i-0abc" [("portNumber", "22")] _
                   "session-1" (ErrMsg "json: unsupported value") _ _));
    reflexivity.
Defined.

(** X13.  In carrier mode, once the session has started, every error
    [connect] returns comes after a call to terminate that session. *)
Theorem connect_carrier_error_terminates
    (conf : Resolve.sessionConfig) (pfConf : portFowardConfig) (w : World)
    (sessionId : string) :
  useRemotePortForward pfConf = false ->
  w_StartSession w = inr sessionId ->
  exists m,
    connect conf pfConf = Some m
    /\ (fst (run m w) <> None -> TerminateSession sessionId ∈ snd (run m w)).
Proof.
  intros Hmode H1. unfold connect. rewrite Hmode. eexists. split; [reflexivity|].
  io_unfold. rewrite H1. cbn.
  destruct (w_jsonMarshal w); cbn; [intros _; in_trace|].
  destruct (w_ReadFile w (Resolve.keyPath pfConf)); cbn; [intros _; in_trace|].
  destruct (w_ParsePrivateKey w); cbn; [intros _; in_trace|].
  destruct (w_HostKeyCallbackNew w); cbn; [intros _; in_trace|].
  destruct (w_ProcStart w); cbn; [intros _; in_trace|].
  destruct (w_SSHNewClientConn w); cbn; [intros _; in_trace|].
  destruct (w_Listen w); cbn; [intros _; in_trace|].
  intros H. contradiction.
Qed.

Lemma connect_carrier_error_terminates_witness :
  exists m,
    connect Samples.broker_session Samples.carrier_plan = Some m
    /\ (fst (run m Samples.no_plugin) <> None ->
        TerminateSession "session-1" ∈ snd (run m Samples.no_plugin)).
Proof.
  apply (connect_carrier_error_terminates Samples.broker_session Samples.carrier_plan
           Samples.no_plugin "session-1"); reflexivity.
Defined.

(** X14.  The direct path gives nothing back: whatever the outside
    answers, [Connect] on a plan without session configuration makes
    no call that closes the SSH client, kills a process or terminates a
    session, not even when the listener cannot be opened after the
    client was dialled. *)
Theorem pfConf_Connect_releases_nothing (pfConf : portFowardConfig) (w : World) :
  Forall (fun c => isRelease c = false) (snd (run (pfConf_Connect pfConf) w)).
Proof.
  unfold pfConf_Connect. io_unfold. cbn.
  destruct (w_ReadFile w (Resolve.keyPath pfConf)); cbn; [repeat constructor|].
  destruct (w_ParsePrivateKey w); cbn; [repeat constructor|].
  destruct (w_HostKeyCallbackNew w); cbn; [repeat constructor|].
  destruct (w_SSHDial w); cbn; [repeat constructor|].
  destruct (w_Listen w); cbn; repeat constructor.
Qed.

(** The direct path when the local port is taken: the client was
    dialled and is left open. *)
Example pfConf_Connect_port_taken :
  run (pfConf_Connect Samples.carrier_plan) Samples.port_taken
  = (Some (ErrMsg "listen tcp :3307: address already in use"),
     [ReadFile "/home/alice/.ssh/id_rsa"; ParsePrivateKey; HostKeyCallbackNew;
      SSHDial "tcp" "i-0abc:22"; Listen "tcp" ":3307"]).
Proof. reflexivity. Qed.

(** X15.  In remote-port-forward mode [connect] returns nil exactly
    when the session starts, the plugin command is built and the
    process starts; the calls are then [StartSession], the start of the
    process and the wait for it. *)
Theorem connect_remote_forward_succeeds_iff
    (conf : Resolve.sessionConfig) (pfConf : portFowardConfig) (w : World) :
  useRemotePortForward pfConf = true ->
  exists m host port,
    connect conf pfConf = Some m
    /\ remoteHostPort (Resolve.dbEndpoint pfConf) = Some (host, port)
    /\ (fst (run m w) = None
        <-> (exists sessionId, w_StartSession w = inr sessionId)
            /\ w_jsonMarshal w = None
            /\ w_ProcStart w = None)
    /\ (fst (run m w) = None ->
        snd (run m w)
        = [StartSession "AWS-StartPortForwardingSessionToRemoteHost"
             (Resolve.instanceID conf)
             [("host", host); ("portNumber", port);
              ("localPortNumber", itoa (Resolve.localPort pfConf))];
           ProcStart;
           ProcWait]).
Proof.
  intros Hmode.
  destruct (remoteHostPort_shape (Resolve.dbEndpoint pfConf)) as (host & port & Hhp & _).
  unfold connect, openRemotePortForwardSession. rewrite Hmode, Hhp. simpl.
  eexists. exists host, port. split; [reflexivity|]. split; [reflexivity|].
  io_unfold.
  destruct (w_StartSession w) as [e|sid]; cbn;
    [split; [split; [discriminate|intros ((s & H) & _); discriminate]|discriminate]|].
  destruct (w_jsonMarshal w); cbn;
    [split; [split; [discriminate|intros (_ & H & _); discriminate]|discriminate]|].
  destruct (w_ProcStart w); cbn;
    [split; [split; [discriminate|intros (_ & _ & H); discriminate]|discriminate]|].
  split; [split; [intros _; repeat split; eauto|reflexivity]|reflexivity].
Qed.

Lemma connect_remote_forward_succeeds_iff_witness :
  exists m host port,
    connect Samples.broker_session Samples.remote_forward_plan = Some m
    /\ remoteHostPort (Resolve.dbEndpoint Samples.remote_forward_plan) = Some (host, port)
    /\ (fst (run m Samples.fine) = None
        <-> (exists sessionId, w_StartSession Samples.fine = inr sessionId)
            /\ w_jsonMarshal Samples.fine = None
            /\ w_ProcStart Samples.fine = None)
    /\ (fst (run m Samples.fine) = None ->
        snd (run m Samples.fine)
        = [StartSession "AWS-StartPortForwardingSessionToRemoteHost"
             (Resolve.instanceID Samples.broker_session)
             [("host", host); ("portNumber", port);
              ("localPortNumber", itoa (Resolve.localPort Samples.remote_forward_plan))];
           ProcStart;
           ProcWait]).
Proof.
  apply (connect_remote_forward_succeeds_iff Samples.broker_session
           Samples.remote_forward_plan Samples.fine).
  reflexivity.
Defined.

(** X16.  The older [connectSession] of package [mysql] and the carrier
    path of [connect] are the same computation: on the plan that
    stands for the configuration they make the same calls and return
    the same error, whatever the outside answers. *)
Theorem connectSession_agrees_with_connect
    (conf : MysqlSession.sessionConfig) (sess : Session) (w : World) :
  exists m,
    connect {| Resolve.instanceID := MysqlSession.instanceID conf; session := Some sess |}
      (MysqlTunnel.planOf conf) = Some m
    /\ run (MysqlTunnel.connectSession (Some conf) (inr sess)) w = run m w.
Proof. eexists. split; reflexivity. Qed.

(** ** The accept loop, continued *)

(** X17.  As long as every accept times out or yields a connection
    whose channel opens, the loop goes on: the connections are handed
    to the copy goroutines in the order they were accepted, nothing is
    written to standard error, and the listener is left as it was. *)
Theorem acceptLoop_goes_on
    (script rest : list (AcceptResult * DialResult)) (st : LoopState) :
  forallb goesOn script = true ->
  acceptLoop (script ++ rest) st
  = acceptLoop rest {| stderr := stderr st;
                       forwarded := forwarded st ++ flat_map served script;
                       listenerClosed := listenerClosed st |}.
Proof.
  revert st. induction script as [|[a dl] script IH]; intros st Hgo.
  - simpl. rewrite app_nil_r. destruct st; reflexivity.
  - simpl in Hgo. apply andb_prop in Hgo as [Hhd Htl].
    destruct a as [lc| |msg]; [destruct dl as [rc|msg]| |]; try discriminate Hhd.
    + change (acceptLoop (((Accepted lc, Dialed rc) :: script) ++ rest) st)
        with (acceptLoop (script ++ rest)
                {| stderr := stderr st;
                   forwarded := forwarded st ++ [(lc, rc)];
                   listenerClosed := listenerClosed st |}).
      rewrite (IH _ Htl). simpl. rewrite <- app_assoc. reflexivity.
    + change (acceptLoop (((AcceptTimeout, dl) :: script) ++ rest) st)
        with (acceptLoop (script ++ rest) st).
      rewrite (IH _ Htl). reflexivity.
Qed.

Lemma acceptLoop_goes_on_witness :
  acceptLoop ([(Accepted 1, Dialed 7); (AcceptTimeout, Dialed 0); (Accepted 2, Dialed 8)]
              ++ [(AcceptFailed "use of closed network connection", Dialed 0)]) initial
  = acceptLoop [(AcceptFailed "use of closed network connection", Dialed 0)]
      {| stderr := stderr initial;
         forwarded := forwarded initial
                      ++ flat_map served
                           [(Accepted 1, Dialed 7); (AcceptTimeout, Dialed 0);
                            (Accepted 2, Dialed 8)];
         listenerClosed := listenerClosed initial |}.
Proof.
  apply (acceptLoop_goes_on
           [(Accepted 1, Dialed 7); (AcceptTimeout, Dialed 0); (Accepted 2, Dialed 8)]
           [(AcceptFailed "use of closed network connection", Dialed 0)] initial).
  reflexivity.
Defined.

(** X18.  Whatever the script, the loop writes at most one line to
    standard error, and it has written one exactly when it has returned
    and closed the listener; the connections handed over before are
    kept. *)
Theorem acceptLoop_one_line (script : list (AcceptResult * DialResult)) (st : LoopState) :
  listenerClosed st = false ->
  (exists more, forwarded (acceptLoop script st) = forwarded st ++ more)
  /\ ((stderr (acceptLoop script st) = stderr st
       /\ listenerClosed (acceptLoop script st) = false)
      \/ (exists line, stderr (acceptLoop script st) = stderr st ++ [line]
          /\ listenerClosed (acceptLoop script st) = true)).
Proof.
  revert st. induction script as [|[a dl] script IH]; intros st Hopen.
  - simpl. split; [exists []; rewrite app_nil_r; reflexivity|]. left. split; [reflexivity|exact Hopen].
  - destruct a as [lc| |msg]; [destruct dl as [rc|msg]| |]; simpl.
    + destruct (IH {| stderr := stderr st;
                      forwarded := forwarded st ++ [(lc, rc)];
                      listenerClosed := listenerClosed st |} Hopen)
        as [[more Hmore] Hlog].
      split; [|exact Hlog].
      exists ((lc, rc) :: more). rewrite Hmore. simpl. rewrite <- app_assoc. reflexivity.
    + split; [exists []; rewrite app_nil_r; reflexivity|].
      right. eexists. split; reflexivity.
    + apply (IH st Hopen).
    + split; [exists []; rewrite app_nil_r; reflexivity|].
      right. eexists. split; reflexivity.
Qed.

Lemma acceptLoop_one_line_witness :
  (exists more,
     forwarded (acceptLoop [(Accepted 1, DialFailed "EOF"); (Accepted 2, Dialed 7)] initial)
     = forwarded initial ++ more)
  /\ ((stderr (acceptLoop [(Accepted 1, DialFailed "EOF"); (Accepted 2, Dialed 7)] initial)
       = stderr initial
       /\ listenerClosed
            (acceptLoop [(Accepted 1, DialFailed "EOF"); (Accepted 2, Dialed 7)] initial)
          = false)
      \/ (exists line,
            stderr (acceptLoop [(Accepted 1, DialFailed "EOF"); (Accepted 2, Dialed 7)]
                      initial)
            = stderr initial ++ [line]
            /\ listenerClosed
                 (acceptLoop [(Accepted 1, DialFailed "EOF"); (Accepted 2, Dialed 7)]
                    initial)
               = true)).
Proof.
  apply (acceptLoop_one_line [(Accepted 1, DialFailed "EOF"); (Accepted 2, Dialed 7)]
           initial).
  reflexivity.
Defined.

(** ** The copy goroutines, continued *)

Lemma copyEnds_consistent d p : pair_consistent p -> pair_consistent (copyEnds d p).
Proof.
  destruct p as [lc rc l2r r2l]. unfold pair_consistent. simpl.
  intros (-> & -> & H).
  destruct d, lc, r2l; simpl; repeat split; auto; intros; try discriminate;
    try (symmetry; apply H; reflexivity).
Qed.

Lemma copyEnds_closed d p :
  pair_consistent p ->
  localClosed (copyEnds d p)
  = localClosed p || match d with LocalToRemote => true | RemoteToLocal => false end.
Proof.
  destruct p as [lc rc l2r r2l]. unfold pair_consistent. simpl.
  intros (-> & -> & H).
  destruct d, lc, r2l; simpl; try reflexivity; try (specialize (H eq_refl); discriminate).
Qed.

(** X19.  In whatever order and however often the two copies of a
    forwarded connection end, the two connections are closed together,
    and they are closed exactly when the copy from the local
    connection has ended; from then on neither copy is running. *)
Theorem copiesEnd_closed_iff (ds : list Direction) :
  let p := copiesEnd ds started in
  remoteClosed p = localClosed p
  /\ (localClosed p = true <-> LocalToRemote ∈ ds)
  /\ (localClosed p = true -> copyingToRemote p = false /\ copyingToLocal p = false).
Proof.
  assert (G : forall ds p,
             pair_consistent p ->
             pair_consistent (copiesEnd ds p)
             /\ (localClosed (copiesEnd ds p) = true
                 <-> localClosed p = true \/ LocalToRemote ∈ ds)).
  { clear ds. induction ds as [|d ds IH]; intros p Hp.
    - simpl. split; [exact Hp|]. split; [auto|].
      intros [H|H]; [exact H|]. exfalso. exact (not_elem_of_nil _ H).
    - simpl. destruct (IH (copyEnds d p) (copyEnds_consistent d p Hp)) as [Hc Hiff].
      split; [exact Hc|]. rewrite Hiff, (copyEnds_closed d p Hp), elem_of_cons.
      destruct d, (localClosed p); simpl; intuition (discriminate || auto). }
  destruct (G ds started) as [(Hrc & Hl2r & Hr2l) Hiff].
  { repeat split. intros H. discriminate. }
  cbv zeta. split; [exact Hrc|]. split.
  - rewrite Hiff. split; [intros [H|H]; [discriminate|exact H]|auto].
  - intros H. split; [rewrite Hl2r, H; reflexivity|exact (Hr2l H)].
Qed.

(** ** Host keys, continued *)

(** X20.  The verification callback only ever appends: it leaves the
    known-hosts file as it is, or adds one line at its end, and it adds
    that line only when the known-hosts callback reports a key error
    with an empty [Want] list, in which case it accepts the key. *)
Theorem hostKeyCallback_appends_only
    (cb : string -> string -> PublicKey -> option error)
    (hostname : string) (remote : Addr) (key : PublicKey) (file : KnownHostsFile) :
  let result := hostKeyCallback cb hostname remote key file in
  kh_writable (snd result) = kh_writable file
  /\ (snd result = file
      \/ (fst result = None
          /\ cb hostname (addr_String (effectiveRemote hostname remote)) key
             = Some (KeyError [])
          /\ kh_lines (snd result)
             = kh_lines file
               ++ [knownhosts_Line [addr_String (effectiveRemote hostname remote)] key])).
Proof.
  unfold hostKeyCallback.
  destruct (cb hostname (addr_String (effectiveRemote hostname remote)) key)
    as [[msg|want|errs]|]; simpl; try (split; [reflexivity|left; reflexivity]).
  destruct want as [|k ks]; simpl; [|split; [reflexivity|left; reflexivity]].
  destruct (kh_writable file) eqn:Hw; simpl.
  - split; [congruence|]. right. repeat split.
  - split; [congruence|]. left. reflexivity.
Qed.

(** X21.  Trust on first use pins the key: once the line for an
    unknown host has been written (over the pipe, or when the remote
    address is the host name), a callback made from the file refuses
    every other key for that host with a key error that wants the
    first key, and writes nothing. *)
Theorem tofu_pins_first_key
    (file : KnownHostsFile) (hostname : string) (remote : Addr) (key other : PublicKey) :
  addr_String remote = "pipe" \/ addr_String remote = hostname ->
  kh_writable file = true ->
  check (kh_lines file) hostname hostname key = Some (KeyError []) ->
  keysEqual key other = false ->
  let after := snd (hostKeyCallback (check (kh_lines file)) hostname remote key file) in
  after = appendLine (knownhosts_Line [hostname] key) file
  /\ hostKeyCallback (check (kh_lines after)) hostname remote other after
     = (Some (KeyError [key]), after).
Proof.
  intros Hremote Hw Hunknown Hother.
  pose proof (effectiveRemote_hostname hostname remote Hremote) as Heff.
  assert (Hafter : snd (hostKeyCallback (check (kh_lines file)) hostname remote key file)
                   = appendLine (knownhosts_Line [hostname] key) file).
  { unfold hostKeyCallback. rewrite Heff, Hunknown. simpl. rewrite Hw. reflexivity. }
  cbv zeta. rewrite Hafter. split; [reflexivity|].
  assert (Hcheck : check (kh_lines file ++ [knownhosts_Line [hostname] key])
                     hostname hostname other = Some (KeyError [key])).
  { revert Hunknown. unfold check.
    destruct (SplitHostPort hostname) as [[host port]|] eqn:Hsplit; [|discriminate].
    destruct (String.eqb hostname "");
      intros Hunknown%checkAddr_unknown;
      unfold checkAddr; rewrite knownKeys_app, Hunknown; simpl;
      unfold lineAddr; rewrite Hsplit; simpl;
      rewrite !String.eqb_refl; simpl;
      destruct (String.eqb (key_type key) (key_type other)); simpl;
      rewrite ?Hother; reflexivity. }
  unfold hostKeyCallback. rewrite Heff. simpl. rewrite Hcheck. reflexivity.
Qed.

Lemma tofu_pins_first_key_witness :
  let after :=
    snd (hostKeyCallback (check (kh_lines Samples.empty_file)) "i-0abc:22"
           Samples.pipe_addr Samples.rsa_key Samples.empty_file) in
  after = appendLine (knownhosts_Line ["i-0abc:22"] Samples.rsa_key) Samples.empty_file
  /\ hostKeyCallback (check (kh_lines after)) "i-0abc:22" Samples.pipe_addr
       Samples.other_rsa_key after
     = (Some (KeyError [Samples.rsa_key]), after).
Proof.
  apply (tofu_pins_first_key Samples.empty_file "i-0abc:22" Samples.pipe_addr
           Samples.rsa_key Samples.other_rsa_key).
  - left. reflexivity.
  - reflexivity.
  - reflexivity.
  - reflexivity.
Defined.

(** ** Quoted identifiers *)

Lemma readQuotedBody_Replace name :
  readQuotedBody (identQuoteReplacer_Replace name +:+ "`") = Some name.
Proof.
  induction name as [|c r IH]; [reflexivity|].
  simpl. destruct (Ascii.eqb c "`") eqn:E.
  - apply Ascii.eqb_eq in E. subst c.
    change (readQuotedBody
              (String "`" (String "`" (identQuoteReplacer_Replace r +:+ "`")))
            = Some (String "`" r)).
    simpl. rewrite IH. reflexivity.
  - change (readQuotedBody (String c (identQuoteReplacer_Replace r +:+ "`"))
            = Some (String c r)).
    simpl. rewrite E, IH. reflexivity.
Qed.

(** X22.  [quoteIdentifier] loses nothing and lets nothing out: the
    quoted text, read as a backtick-quoted identifier, is one
    identifier and it is the name that was given, backticks
    included. *)
Theorem quoteIdentifier_read_back (name : string) :
  readQuoted (quoteIdentifier name) = Some name.
Proof.
  unfold quoteIdentifier, readQuoted.
  change ("`" +:+ identQuoteReplacer_Replace name +:+ "`")
    with (String "`" (identQuoteReplacer_Replace name +:+ "`")).
  apply readQuotedBody_Replace.
Qed.

Example quoteIdentifier_sample :
  quoteIdentifier "a`; DROP TABLE t; --" = "`a``; DROP TABLE t; --`".
Proof. reflexivity. Qed.

(** ** Validation on the path [providerConfigure] runs *)

(** Where an error of the resolution comes from. *)
Lemma resolve_error_cases (os : OS) (d : ResourceData) (lp : N) (e : error) :
  resolve os d lp = inl e ->
  e = ErrMsg "parseSessionConfig's format validate"
  \/ e = ErrMsg "portForwardConfig's format validate"
  \/ (exists sc, sessionConfig_validate sc = Some e)
  \/ (exists pf, portFowardConfig_validate os pf = Some e).
Proof.
  destruct (d_aws_ssm_session_manager_client_config d) as [[|[confMap|] rest]|] eqn:Hd.
  - unfold resolve, ParseSessionConfig. rewrite Hd. intros [= <-]. auto.
  - rewrite (resolve_broker_closed_form os d lp confMap rest Hd).
    destruct (sessionConfig_validate _) as [err|] eqn:Hv.
    + intros [= <-]. right. right. left. eauto.
    + destruct (asBool _); [discriminate|]. cbv zeta.
      destruct (portFowardConfig_validate os _) as [err|] eqn:Hp; [|discriminate].
      intros [= <-]. right. right. right. eauto.
  - unfold resolve, ParseSessionConfig. rewrite Hd. intros [= <-]. auto.
  - destruct (d_port_forward_client_config d) as [[|[confMap|] rest]|] eqn:Hp.
    + unfold resolve, ParseSessionConfig, ParsePFConfigMap. rewrite Hd, Hp.
      intros [= <-]. auto.
    + rewrite (resolve_direct_closed_form os d lp confMap rest Hd Hp). cbv zeta.
      destruct (portFowardConfig_validate os _) as [err|] eqn:Hv; [|discriminate].
      intros [= <-]. right. right. right. eauto.
    + unfold resolve, ParseSessionConfig, ParsePFConfigMap. rewrite Hd, Hp.
      intros [= <-]. auto.
    + unfold resolve, ParseSessionConfig, ParsePFConfigMap. rewrite Hd, Hp.
      discriminate.
Qed.

Ltac not_among :=
  let H := fresh in
  simpl; intros H;
  repeat (apply elem_of_cons in H as [H|H]; [simpl in H; discriminate H|]);
  exact (not_elem_of_nil _ H).

Lemma sessionConfig_validate_no_region sc e :
  sessionConfig_validate sc = Some e -> ErrMsg "not set region" ∉ causes e.
Proof.
  rewrite sessionConfig_validate_all.
  destruct (String.eqb (Resolve.instanceID sc) ""), (session sc);
    simpl; try discriminate; intros [= <-]; not_among.
Qed.

Lemma portFowardConfig_validate_no_region os pf e :
  portFowardConfig_validate os pf = Some e -> ErrMsg "not set region" ∉ causes e.
Proof.
  rewrite portFowardConfig_validate_all.
  destruct (String.eqb (Resolve.sshUser pf) ""), (os_Stat os (Resolve.keyPath pf));
    simpl; try discriminate; intros [= <-]; not_among.
Qed.

(** No error of the resolution reports an unset region. *)
Lemma resolve_error_no_region (os : OS) (d : ResourceData) (lp : N) (e : error) :
  resolve os d lp = inl e -> ErrMsg "not set region" ∉ causes e.
Proof.
  intros H. apply resolve_error_cases in H as [->|[->|[[sc H]|[pf H]]]].
  - not_among.
  - not_among.
  - exact (sessionConfig_validate_no_region sc e H).
  - exact (portFowardConfig_validate_no_region os pf e H).
Qed.

(** C7 as stated fails on the path [providerConfigure] runs.  On a
    machine without key file, a direct-SSH block (which has no region)
    is refused for the key file alone, and a broker block without
    region that sets the flag is not refused at all. *)
Lemma validation_on_resolution_misses_region :
  os_Stat Samples.alice_os_without_key (defaultSSHKeyPath Samples.alice_os_without_key)
    = false
  /\ Samples.broker_block (Some true) !! "region" = None
  /\ (exists e,
        resolve Samples.alice_os_without_key Samples.direct_config 3307 = inl e
        /\ e = MultiError [ErrMsg "ssh_key_path: /home/alice/.ssh/id_rsa is not exist"]
        /\ ~ reports_key_and_region "/home/alice/.ssh/id_rsa" e)
  /\ (exists plan,
        resolve Samples.alice_os_without_key (Samples.broker_config (Some true)) 3307
        = inr plan).
Proof.
  split; [reflexivity|]. split; [vm_compute; reflexivity|]. split.
  - eexists. split; [vm_compute; reflexivity|]. split; [reflexivity|].
    intros [_ Hregion]. revert Hregion. not_among.
  - eexists. vm_compute. reflexivity.
Qed.

(** C7, amended.  Each validator collects every violation it tests for
    into one aggregated error instead of stopping at the first.
    [validateConfig] of package [mysql] tests for the region: for every
    configuration whose key file does not exist and whose region is
    unset its error reports both.  The two validators of package
    [port_forward], the ones the resolution runs, test for the instance
    identifier and the AWS session, and for the SSH user and the key
    file; no error of the resolution reports an unset region. *)
Theorem validation_aggregates_what_it_tests
    (stat : string -> bool) (conf : MysqlSession.sessionConfig) :
  stat (MysqlSession.keyPath conf) = false ->
  MysqlSession.region conf = "" ->
  (exists errs,
     MysqlSession.validateConfig stat conf = Some (MultiError errs)
     /\ errs = MysqlSession.violations stat conf
     /\ reports_key_and_region (MysqlSession.keyPath conf) (MultiError errs))
  /\ (forall os pfConf,
        portFowardConfig_validate os pfConf
        = match (if String.eqb (Resolve.sshUser pfConf) ""
                 then [ErrMsg "not set ssh_user"] else [])
                ++ (if os_Stat os (Resolve.keyPath pfConf) then []
                    else [ErrMsg ("ssh_key_path: " +:+ Resolve.keyPath pfConf
                                  +:+ " is not exist")]) with
          | [] => None
          | vs => Some (MultiError vs)
          end)
  /\ (forall sc,
        sessionConfig_validate sc
        = match (if String.eqb (Resolve.instanceID sc) ""
                 then [ErrMsg "not set ec2_instance_id"] else [])
                ++ (match session sc with
                    | None => [ErrMsg "AWS configure is not a valid"]
                    | Some _ => []
                    end) with
          | [] => None
          | vs => Some (MultiError vs)
          end)
  /\ (forall os d lp e,
        resolve os d lp = inl e -> ErrMsg "not set region" ∉ causes e).
Proof.
  intros Hstat Hregion.
  destruct (validateConfig_mentions_key_and_region stat conf Hstat Hregion)
    as ((errs & Hv & Herrs & Hkey & Hreg) & Hpf & Hsc).
  split; [|split; [exact Hpf|split; [exact Hsc|exact resolve_error_no_region]]].
  exists errs. split; [exact Hv|]. split; [exact Herrs|].
  assert (Hcauses : causes (MultiError errs) = errs).
  { rewrite Herrs. unfold MysqlSession.violations, MysqlSession.checks.
    destruct (String.eqb (MysqlSession.instanceID conf) ""),
      (String.eqb (MysqlSession.dbEndpoint conf) ""),
      (String.eqb (MysqlSession.sshUser conf) ""),
      (String.eqb (MysqlSession.keyPath conf) ""),
      (stat (MysqlSession.keyPath conf)),
      (String.eqb (MysqlSession.region conf) ""); reflexivity. }
  unfold reports_key_and_region. rewrite Hcauses. split; assumption.
Qed.

Lemma validation_aggregates_what_it_tests_witness :
  exists errs,
    MysqlSession.validateConfig (fun _ => false) Samples.bare_config
    = Some (MultiError errs)
    /\ errs = MysqlSession.violations (fun _ => false) Samples.bare_config
    /\ reports_key_and_region (MysqlSession.keyPath Samples.bare_config)
         (MultiError errs).
Proof.
  apply (validation_aggregates_what_it_tests (fun _ => false) Samples.bare_config);
    reflexivity.
Defined.

(** ** Trust on first use for a host reached by name *)

Lemma knownKeys_no_match host port lines seen :
  (forall l, l ∈ lines -> line_matches l host port = false) ->
  knownKeys lines host port seen = seen.
Proof.
  revert seen. induction lines as [|l rest IH]; intros seen Hno; [reflexivity|].
  simpl. rewrite (Hno l (list_elem_of_here _ _)). simpl.
  apply IH. intros l' Hl'. apply Hno. apply list_elem_of_further. exact Hl'.
Qed.

Lemma pair_eqb_false (a b c d : string) :
  (a, b) <> (c, d) -> String.eqb a c && String.eqb b d = false.
Proof.
  intros Hne.
  destruct (String.eqb_spec a c) as [->|]; [|reflexivity].
  destruct (String.eqb_spec b d) as [->|]; [|reflexivity].
  contradiction.
Qed.

(** A host that no line matches is unknown to [check], whatever the
    key; and it stays so after a line for another address has been
    added. *)
Lemma check_by_name_unknown lines hostname remote host port rhost rport key extra :
  SplitHostPort hostname = Some (host, port) ->
  SplitHostPort remote = Some (rhost, rport) ->
  (forall l, l ∈ lines ++ extra -> line_matches l host port = false) ->
  check (lines ++ extra) hostname remote key = Some (KeyError []).
Proof.
  intros Hname Hremote Hno. unfold check. rewrite Hremote, Hname.
  assert (Hne : String.eqb hostname "" = false).
  { destruct hostname; [discriminate Hname|reflexivity]. }
  rewrite Hne. unfold checkAddr.
  rewrite (knownKeys_no_match host port _ [] Hno). reflexivity.
Qed.

(** C8, what the code does.  For a host reached over TCP whose name is
    not the address it is reached at, and which the known-hosts file
    does not know, the callback accepts the key and writes a line for
    the remote address, while the look-up goes by the host name: a
    callback made afterwards from the file still takes the host for
    unknown, accepts whatever key is presented next, the same or
    another, and appends a second line. *)
Theorem tofu_by_name_never_recognises
    (file : KnownHostsFile) (hostname : string) (remote : Addr) (key next : PublicKey)
    (host port rhost rport : string) :
  addr_String remote <> "pipe" ->
  SplitHostPort hostname = Some (host, port) ->
  SplitHostPort (addr_String remote) = Some (rhost, rport) ->
  (rhost, rport) <> (host, port) ->
  kh_writable file = true ->
  (forall l, l ∈ kh_lines file -> line_matches l host port = false) ->
  exists callback1 callback2 after1 after2,
    createHostKeyCallback (Some file) = inr callback1
    /\ callback1 hostname remote key file = (None, after1)
    /\ createHostKeyCallback (Some after1) = inr callback2
    /\ callback2 hostname remote next after1 = (None, after2)
    /\ kh_lines after2
       = kh_lines file ++ [knownhosts_Line [addr_String remote] key;
                           knownhosts_Line [addr_String remote] next].
Proof.
  intros Hpipe Hname Hremote Hdiff Hw Hno.
  assert (Heff : effectiveRemote hostname remote = remote).
  { unfold effectiveRemote.
    destruct (String.eqb_spec (addr_String remote) "pipe"); [contradiction|reflexivity]. }
  assert (Hfirst : check (kh_lines file) hostname (addr_String remote) key
                   = Some (KeyError [])).
  { rewrite <- (app_nil_r (kh_lines file)).
    apply (check_by_name_unknown _ _ _ host port rhost rport); try assumption.
    rewrite app_nil_r. exact Hno. }
  assert (Hsecond : check (kh_lines file ++ [knownhosts_Line [addr_String remote] key])
                      hostname (addr_String remote) next = Some (KeyError [])).
  { apply (check_by_name_unknown _ _ _ host port rhost rport); try assumption.
    intros l Hl. apply elem_of_app in Hl as [Hl|Hl]; [exact (Hno l Hl)|].
    apply list_elem_of_singleton in Hl. subst l. simpl.
    unfold lineAddr. rewrite Hremote. simpl.
    rewrite (pair_eqb_false _ _ _ _ Hdiff). reflexivity. }
  eexists. eexists. eexists. eexists.
  split; [reflexivity|]. split.
  { unfold hostKeyCallback. rewrite Heff, Hfirst. simpl. rewrite Hw. reflexivity. }
  split; [reflexivity|]. split.
  { unfold hostKeyCallback. rewrite Heff. simpl. rewrite Hsecond. simpl. rewrite Hw.
    reflexivity. }
  simpl. rewrite <- app_assoc. reflexivity.
Qed.

Lemma tofu_by_name_never_recognises_witness :
  exists callback1 callback2 after1 after2,
    createHostKeyCallback (Some Samples.empty_file) = inr callback1
    /\ callback1 "bastion.example.com:22" Samples.tcp_addr Samples.rsa_key
         Samples.empty_file = (None, after1)
    /\ createHostKeyCallback (Some after1) = inr callback2
    /\ callback2 "bastion.example.com:22" Samples.tcp_addr Samples.other_rsa_key after1
       = (None, after2)
    /\ kh_lines after2
       = kh_lines Samples.empty_file
         ++ [knownhosts_Line [addr_String Samples.tcp_addr] Samples.rsa_key;
             knownhosts_Line [addr_String Samples.tcp_addr] Samples.other_rsa_key].
Proof.
  apply (tofu_by_name_never_recognises Samples.empty_file "bastion.example.com:22"
           Samples.tcp_addr Samples.rsa_key Samples.other_rsa_key
           "bastion.example.com" "22" "203.0.113.7" "22").
  - discriminate.
  - reflexivity.
  - reflexivity.
  - discriminate.
  - reflexivity.
  - intros l Hl. exfalso. exact (not_elem_of_nil _ Hl).
Defined.
